(** * Post controller of the blog backend: a shallow embedding

    The development follows [controllers/postController.ts]: the three
    mutating handlers [addPost], [updatePost] and [deletePost], the request
    and document shapes they touch, and the posts collection they read and
    write.  Values that the handlers treat as [any] are kept as an untyped
    JavaScript value; the collection is a finite map from object ids to
    documents; a handler is a function from the collection to a response
    and the collection afterwards. *)

From Stdlib Require Import ZArith Bool Ascii String List.
From Stdlib Require Floats.PrimFloat.
From stdpp Require Import base option strings pretty gmap sorting.

Open Scope string_scope.

(** ** JavaScript values *)

(** The values a parsed request body can hold.  A number is a double, as
    in the language. *)
#[warnings="-register-all"] Inductive JsVal : Type :=
| VUndefined
| VNull
| VBool (b : bool)
| VNum (n : PrimFloat.float)
| VStr (s : string)
| VArr (items : list JsVal)
| VObj (props : list (string * JsVal)).

(** What a [throw] carries. *)
Inductive Exn : Type :=
| TypeError
| SyntaxError
| ValidationError
| DuplicateKey.

(** The outcome of evaluating an expression: a value, or a thrown error. *)
Inductive Completion (A : Type) : Type :=
| Normal (a : A)
| Throw (e : Exn).
Arguments Normal {A} a.
Arguments Throw {A} e.

(** [if (v)], [!v], [v ? _ : _]: ToBoolean. *)
Definition truthy (v : JsVal) : bool :=
  match v with
  | VUndefined | VNull => false
  | VBool b => b
  | VNum n => negb (PrimFloat.is_zero n || PrimFloat.is_nan n)
  | VStr s => negb (String.eqb s "")
  | VArr _ | VObj _ => true
  end.

(** [typeof v === "string"], giving the string when it is one. *)
Definition as_string (v : JsVal) : option string :=
  match v with
  | VStr s => Some s
  | _ => None
  end.

(** [v === "true" || v === true], the coercion of [published]. *)
Definition published_flag (v : JsVal) : bool :=
  match v with
  | VStr s => String.eqb s "true"
  | VBool b => b
  | _ => false
  end.

(** Own property lookup on an object literal. *)
Fixpoint own_prop (k : string) (props : list (string * JsVal)) : option JsVal :=
  match props with
  | [] => None
  | (k', v) :: rest => if String.eqb k k' then Some v else own_prop k rest
  end.

(** ** Documents, requests and responses *)

(** A stored post.  [author] is an object id, printed as its hex string;
    [featuredImage] is absent or a path; the remaining fields hold what the
    handler assigned. *)
Record PostDoc : Type := mkPost {
  post_title : JsVal;
  post_slug : JsVal;
  post_content : JsVal;
  post_author : string;
  post_category : JsVal;
  post_tags : JsVal;
  post_seo : JsVal;
  post_featuredImage : option string;
  post_published : bool
}.

(** [req.user], attached by the authentication middleware when it ran. *)
Record User : Type := mkUser {
  user_id : string;
  user_role : string
}.

(** The seven names the handlers destructure out of [req.body]; a name the
    body does not carry is [VUndefined]. *)
Record Body : Type := mkBody {
  body_title : JsVal;
  body_slug : JsVal;
  body_content : JsVal;
  body_category : JsVal;
  body_tags : JsVal;
  body_seo : JsVal;
  body_published : JsVal
}.

(** [req.file], set by the upload middleware. *)
Record File : Type := mkFile { file_path : string }.

Record AuthRequest : Type := mkReq {
  params_id : string;
  user : option User;
  body : option Body;
  file : option File
}.

(** What [res.json] is given. *)
Inductive Payload : Type :=
| ErrorBody (error : string) (details : option Exn)
| PostBody (doc : option PostDoc)
| MessageBody (message : string).

Record Response : Type := mkRes {
  status : nat;
  payload : Payload
}.

(** The posts collection. *)
Abbreviation Store := (gmap string PostDoc).

(** ** Handler computations: collection state and thrown errors *)

Definition Action (A : Type) : Type := Store -> Completion A * Store.

Definition ret {A} (a : A) : Action A := fun db => (Normal a, db).
Definition throw {A} (e : Exn) : Action A := fun db => (Throw e, db).
Definition bind {A B} (m : Action A) (k : A -> Action B) : Action B :=
  fun db =>
    match m db with
    | (Normal a, db') => k a db'
    | (Throw e, db') => (Throw e, db')
    end.
Definition lift {A} (c : Completion A) : Action A := fun db => (c, db).

Notation "'let!' x ':=' m 'in' k" := (bind m (fun x => k))
  (at level 10, x name, m at level 100, k at level 200).

(** [try { m } catch (err) { res.status(..).json(h err) }]: whatever the
    block wrote before it threw stays written. *)
Definition try_catch (m : Action Response) (h : Exn -> Response)
  : Store -> Response * Store :=
  fun db =>
    match m db with
    | (Normal r, db') => (r, db')
    | (Throw e, db') => (h e, db')
    end.

(** [const { .. } = req.body] throws on an absent body. *)
Definition destructure (b : option Body) : Action Body :=
  match b with
  | Some b => ret b
  | None => throw TypeError
  end.

(** ** What the controller imports

    [generateSlug] comes from [utils/slugfy], [JSON.parse] from the
    language, [isValidObjectId] and the [Post] model from mongoose.  The
    controller is verified against any implementation of them:
    - [generateSlug] returns a string or throws;
    - [JSON_parse] is [None] where [JSON.parse] throws;
    - [Number_toString] is the text [Number.prototype.toString] gives for
      a number;
    - [storeAccepts db oid doc] says whether the schema of the model and
      the indexes of the collection [db] let [doc] be written under [oid];
    - [newObjectId db] is the id the driver picks for the next document.
    A document is stored with the field values the handler hands over; a
    write that the schema would refuse is a thrown [ValidationError].  The
    collection answers every call: connection failures are not modelled. *)
Class Platform : Type := {
  generateSlug : JsVal -> Completion string;
  JSON_parse : string -> option JsVal;
  Number_toString : PrimFloat.float -> string;
  isValidObjectId : string -> bool;
  storeAccepts : Store -> string -> PostDoc -> bool;
  newObjectId : Store -> string
}.

(** The author written when the request has no caller identity. *)
Definition fallbackAuthor : string := "68ae1145a564344c2e6e03fb".

(** Field assignments on a loaded document, [existing.f = v]. *)
Definition set_title (v : JsVal) (d : PostDoc) : PostDoc :=
  mkPost v (post_slug d) (post_content d) (post_author d) (post_category d)
         (post_tags d) (post_seo d) (post_featuredImage d) (post_published d).
Definition set_slug (v : JsVal) (d : PostDoc) : PostDoc :=
  mkPost (post_title d) v (post_content d) (post_author d) (post_category d)
         (post_tags d) (post_seo d) (post_featuredImage d) (post_published d).
Definition set_content (v : JsVal) (d : PostDoc) : PostDoc :=
  mkPost (post_title d) (post_slug d) v (post_author d) (post_category d)
         (post_tags d) (post_seo d) (post_featuredImage d) (post_published d).
Definition set_category (v : JsVal) (d : PostDoc) : PostDoc :=
  mkPost (post_title d) (post_slug d) (post_content d) (post_author d) v
         (post_tags d) (post_seo d) (post_featuredImage d) (post_published d).
Definition set_tags (v : JsVal) (d : PostDoc) : PostDoc :=
  mkPost (post_title d) (post_slug d) (post_content d) (post_author d)
         (post_category d) v (post_seo d) (post_featuredImage d)
         (post_published d).
Definition set_seo (v : JsVal) (d : PostDoc) : PostDoc :=
  mkPost (post_title d) (post_slug d) (post_content d) (post_author d)
         (post_category d) (post_tags d) v (post_featuredImage d)
         (post_published d).
Definition set_published (v : bool) (d : PostDoc) : PostDoc :=
  mkPost (post_title d) (post_slug d) (post_content d) (post_author d)
         (post_category d) (post_tags d) (post_seo d) (post_featuredImage d) v.
Definition set_featuredImage (v : string) (d : PostDoc) : PostDoc :=
  mkPost (post_title d) (post_slug d) (post_content d) (post_author d)
         (post_category d) (post_tags d) (post_seo d) (Some v)
         (post_published d).

(** [if (v) existing.f = v]. *)
Definition assign_if_truthy (set : JsVal -> PostDoc -> PostDoc) (v : JsVal)
    (d : PostDoc) : PostDoc :=
  if truthy v then set v d else d.

Section Controller.
Context `{Platform}.

(** [v.toString()].  A string is itself; a boolean prints as its name and
    a number as [Number.prototype.toString] prints it; an array joins its
    elements with commas, [null] and [undefined] printing as nothing; a
    plain object prints as [[object Object]] unless an own [toString]
    property (never a function in parsed data) shadows the inherited
    method, and then the call throws. *)
Fixpoint toString (v : JsVal) : Completion string :=
  match v with
  | VUndefined | VNull => Throw TypeError
  | VBool b => Normal (if b then "true" else "false")
  | VNum n => Normal (Number_toString n)
  | VStr s => Normal s
  | VArr items =>
      (fix join (l : list JsVal) : Completion string :=
         match l with
         | [] => Normal ""
         | x :: rest =>
             let first :=
               match x with
               | VUndefined | VNull => Normal ""
               | _ => toString x
               end in
             match rest with
             | [] => first
             | _ :: _ =>
                 match first, join rest with
                 | Normal s, Normal r => Normal (s +:+ "," +:+ r)
                 | Throw e, _ => Throw e
                 | _, Throw e => Throw e
                 end
             end
         end) items
  | VObj props =>
      match own_prop "toString" props with
      | Some _ => Throw TypeError
      | None => Normal "[object Object]"
      end
  end.

(** [typeof v === "string" ? JSON.parse(v) : v] inside its own
    [try]/[catch]: [None] is the [catch] branch. *)
Definition parse_if_string (v : JsVal) : option JsVal :=
  match as_string v with
  | Some s => JSON_parse s
  | None => Some v
  end.

(** *** The model's operations on the collection *)

Definition Post_findById (oid : string) : Action (option PostDoc) :=
  fun db => (Normal (db !! oid), db).

(** [Post.create(doc)]: validated, given a new id, inserted. *)
Definition Post_create (doc : PostDoc) : Action string :=
  fun db =>
    let oid := newObjectId db in
    if storeAccepts db oid doc then
      match db !! oid with
      | Some _ => (Throw DuplicateKey, db)
      | None => (Normal oid, <[oid := doc]> db)
      end
    else (Throw ValidationError, db).

(** [existing.save()] for the document loaded under [oid]. *)
Definition Post_save (oid : string) (doc : PostDoc) : Action unit :=
  fun db =>
    if storeAccepts db oid doc then (Normal tt, <[oid := doc]> db)
    else (Throw ValidationError, db).

Definition Post_findByIdAndDelete (oid : string) : Action (option PostDoc) :=
  fun db => (Normal (db !! oid), delete oid db).

(** [req.user.role !== "admin" && existing.author.toString() !== req.user.id] *)
Definition forbidden (u : User) (existing : PostDoc) : bool :=
  negb (String.eqb (user_role u) "admin")
  && negb (String.eqb (post_author existing) (user_id u)).

(** [req.user?.id ? req.user.id : "68ae1145a564344c2e6e03fb"] *)
Definition author_for (u : option User) : string :=
  match u with
  | Some u => if String.eqb (user_id u) "" then fallbackAuthor else user_id u
  | None => fallbackAuthor
  end.

(** *** POST /api/posts *)

(** [slug ? slug.toString() : generateSlug(title)] *)
Definition finalSlug (b : Body) : Completion string :=
  if truthy (body_slug b) then toString (body_slug b)
  else generateSlug (body_title b).

(** [parsedTags]: empty unless [tags] is truthy; [None] is the [catch]. *)
Definition parsedTags (b : Body) : option JsVal :=
  if truthy (body_tags b) then parse_if_string (body_tags b)
  else Some (VArr []).

(** [parsedSeo]; [None] is the [catch]. *)
Definition parsedSeo (b : Body) : option JsVal :=
  parse_if_string (body_seo b).

(** The object handed to [Post.create]. *)
Definition newPost (req : AuthRequest) (b : Body) (slug : string)
    (tags seo : JsVal) : PostDoc :=
  {| post_title := body_title b;
     post_slug := VStr slug;
     post_content := body_content b;
     post_author := author_for (user req);
     post_category := body_category b;
     post_tags := tags;
     post_seo := seo;
     post_featuredImage := file_path <$> file req;
     post_published := published_flag (body_published b) |}.

(** [!title || !content || !category || !seo] *)
Definition lacks_required (b : Body) : bool :=
  negb (truthy (body_title b)) || negb (truthy (body_content b))
  || negb (truthy (body_category b)) || negb (truthy (body_seo b)).

Definition addPost (req : AuthRequest) : Store -> Response * Store :=
  try_catch
    (let! b := destructure (body req) in
     if lacks_required b then
       ret (mkRes 400
              (ErrorBody "title, content, category and seo are required" None))
     else
       let! slug := lift (finalSlug b) in
       match parsedTags b with
       | None => ret (mkRes 400 (ErrorBody "Invalid tags JSON" None))
       | Some tags =>
           match parsedSeo b with
           | None => ret (mkRes 400 (ErrorBody "Invalid SEO JSON" None))
           | Some seo =>
               let! oid := Post_create (newPost req b slug tags seo) in
               let! populatedPost := Post_findById oid in
               ret (mkRes 201 (PostBody populatedPost))
           end
       end)
    (fun err => mkRes 400 (ErrorBody "Invalid data" (Some err))).

(** *** PUT /api/posts/:id *)

(** The assignments of the handler, from [title] down to the upload, on
    the loaded document; the two [catch] branches answer 400. *)
Definition apply_body (req : AuthRequest) (b : Body) (existing : PostDoc)
  : Response + PostDoc :=
  let existing := assign_if_truthy set_title (body_title b) existing in
  let existing := assign_if_truthy set_slug (body_slug b) existing in
  let existing := assign_if_truthy set_content (body_content b) existing in
  let existing := assign_if_truthy set_category (body_category b) existing in
  match (if truthy (body_tags b)
         then (fun v => set_tags v existing) <$> parse_if_string (body_tags b)
         else Some existing) with
  | None => inl (mkRes 400 (ErrorBody "Invalid tags JSON" None))
  | Some existing =>
      match (if truthy (body_seo b)
             then (fun v => set_seo v existing) <$> parse_if_string (body_seo b)
             else Some existing) with
      | None => inl (mkRes 400 (ErrorBody "Invalid SEO JSON" None))
      | Some existing =>
          let existing :=
            match body_published b with
            | VUndefined => existing
            | p => set_published (published_flag p) existing
            end in
          let existing :=
            match file req with
            | Some f =>
                if String.eqb (file_path f) "" then existing
                else set_featuredImage (file_path f) existing
            | None => existing
            end in
          inr existing
      end
  end.

Definition updatePost (req : AuthRequest) : Store -> Response * Store :=
  let id := params_id req in
  if negb (isValidObjectId id) then
    fun db => (mkRes 400 (ErrorBody "Invalid ID" None), db)
  else
    try_catch
      (let! existing := Post_findById id in
       match existing with
       | None => ret (mkRes 404 (ErrorBody "Post not found" None))
       | Some existing =>
           match user req with
           | None => ret (mkRes 401 (ErrorBody "Unauthorized" None))
           | Some u =>
               if forbidden u existing then
                 ret (mkRes 403 (ErrorBody "Forbidden" None))
               else
                 let! b := destructure (body req) in
                 match apply_body req b existing with
                 | inl res => ret res
                 | inr existing =>
                     let! _ := Post_save id existing in
                     let! populated := Post_findById id in
                     ret (mkRes 200 (PostBody populated))
                 end
           end
       end)
      (fun err => mkRes 400 (ErrorBody "Invalid update request" (Some err))).

(** *** DELETE /api/posts/:id *)
Definition deletePost (req : AuthRequest) : Store -> Response * Store :=
  let id := params_id req in
  if negb (isValidObjectId id) then
    fun db => (mkRes 400 (ErrorBody "Invalid ID" None), db)
  else
    try_catch
      (let! existing := Post_findById id in
       match existing with
       | None => ret (mkRes 404 (ErrorBody "Post not found" None))
       | Some existing =>
           match user req with
           | None => ret (mkRes 401 (ErrorBody "Unauthorized" None))
           | Some u =>
               if forbidden u existing then
                 ret (mkRes 403 (ErrorBody "Forbidden" None))
               else
                 let! _ := Post_findByIdAndDelete id in
                 ret (mkRes 200 (MessageBody "Post deleted"))
           end
       end)
      (fun err => mkRes 500 (ErrorBody "Server error" (Some err))).

End Controller.

(** ** The reading handlers and the route table *)

(** What [res.json] is given by the listing: the documents, each with its
    id, or the error object of the [catch]. *)
Inductive ListPayload : Type :=
| PostsBody (posts : list (string * PostDoc))
| ListErrorBody (error : string) (details : option Exn).

Record ListResponse : Type := mkList {
  list_status : nat;
  list_payload : ListPayload
}.

(** The [createdAt] stamp the collection keeps for the document stored
    under an id; it is set when the document is created and is not among
    the fields the handlers assign. *)
Class Timestamps : Type := {
  createdAt : string -> Z
}.

(** The verbs a request can come with; the router registers four. *)
Inductive Method : Type :=
| GET
| POST
| PUT
| DELETE
| OtherMethod.

(** What a route answers: one document or an error, or the listing. *)
Inductive Reply : Type :=
| One (r : Response)
| Many (r : ListResponse).

(** The router fills [req.params.id] from the path. *)
Definition with_params (id : string) (req : AuthRequest) : AuthRequest :=
  mkReq id (user req) (body req) (file req).

(** A request as it reaches the router: verb, the path below the mount
    point cut into its segments, and the request object. *)
Record Incoming : Type := mkIncoming {
  in_method : Method;
  in_path : list string;
  in_request : AuthRequest
}.

(** The three fields without which [addPost] refuses a body: present in a
    stored post when each is truthy. *)
Definition required_present (d : PostDoc) : bool :=
  truthy (post_title d) && truthy (post_content d) && truthy (post_category d).

Section Reading.
Context `{Platform} `{Timestamps}.

(** *** GET /api/posts/:id *)
Definition getPostById (req : AuthRequest) : Store -> Response * Store :=
  let id := params_id req in
  if negb (isValidObjectId id) then
    fun db => (mkRes 400 (ErrorBody "Invalid ID" None), db)
  else
    try_catch
      (let! post := Post_findById id in
       match post with
       | None => ret (mkRes 404 (ErrorBody "Post not found" None))
       | Some post => ret (mkRes 200 (PostBody (Some post)))
       end)
      (fun err => mkRes 500 (ErrorBody "Server error" (Some err))).

(** *** GET /api/posts *)

(** [.sort({ createdAt: -1 })]: [x] may come before [y] when it is not
    older. *)
Definition newer (x y : string * PostDoc) : Prop :=
  (createdAt y.1 <= createdAt x.1)%Z.

#[export] Instance newer_dec : RelDecision newer :=
  fun x y => Z_le_dec (createdAt y.1) (createdAt x.1).

(** [Post.find().sort({ createdAt: -1 })] *)
Definition Post_find_sorted : Action (list (string * PostDoc)) :=
  fun db => (Normal (merge_sort newer (map_to_list db)), db).

Definition getAllPosts (req : AuthRequest) : Store -> ListResponse * Store :=
  fun db =>
    match Post_find_sorted db with
    | (Normal posts, db') => (mkList 200 (PostsBody posts), db')
    | (Throw err, db') =>
        (mkList 500 (ListErrorBody "Server error" (Some err)), db')
    end.

(** *** routes/postRoutes.ts

    The five registrations, in their order; [None] is a request that no
    registration matches and that the router passes on. *)
Definition postRoutes (m : Method) (path : list string) (req : AuthRequest)
  : option (Store -> Reply * Store) :=
  match m, path with
  | GET, [] => Some (fun db => let '(r, db') := getAllPosts req db in (Many r, db'))
  | GET, [id] =>
      Some (fun db =>
              let '(r, db') := getPostById (with_params id req) db in (One r, db'))
  | POST, [] => Some (fun db => let '(r, db') := addPost req db in (One r, db'))
  | PUT, [id] =>
      Some (fun db =>
              let '(r, db') := updatePost (with_params id req) db in (One r, db'))
  | DELETE, [id] =>
      Some (fun db =>
              let '(r, db') := deletePost (with_params id req) db in (One r, db'))
  | _, _ => None
  end.

(** The collection after the router has handled one request, and after it
    has handled a sequence of them one by one. *)
Definition after_request (i : Incoming) (db : Store) : Store :=
  match postRoutes (in_method i) (in_path i) (in_request i) with
  | Some handler => (handler db).2
  | None => db
  end.

Definition serve (requests : list Incoming) (db : Store) : Store :=
  foldl (fun db i => after_request i db) db requests.

End Reading.

(** ** A concrete platform

    One implementation of the imports, on which the handlers run on
    concrete requests. *)
Module Concrete.
Local Open Scope nat_scope.

Definition is_digit (c : ascii) : bool :=
  let n := nat_of_ascii c in (48 <=? n) && (n <=? 57).
Definition is_lower (c : ascii) : bool :=
  let n := nat_of_ascii c in (97 <=? n) && (n <=? 122).
Definition is_upper (c : ascii) : bool :=
  let n := nat_of_ascii c in (65 <=? n) && (n <=? 90).
Definition is_hex (c : ascii) : bool :=
  let n := nat_of_ascii c in
  is_digit c || ((97 <=? n) && (n <=? 102)) || ((65 <=? n) && (n <=? 70)).
Definition to_lower (c : ascii) : ascii :=
  if is_upper c then ascii_of_nat (nat_of_ascii c + 32) else c.

(** Modelled from the spec: [utils/slugfy] is not among the sources.  The
    slug of a title is the title lowercased, with every run of characters
    other than letters and digits replaced by one hyphen and no hyphen at
    either end; the bound on its length, which the spec leaves open, is
    not applied. *)
Fixpoint slug_chars (pending : bool) (started : bool) (cs : list ascii)
  : list ascii :=
  match cs with
  | [] => []
  | c :: rest =>
      let c := to_lower c in
      if is_digit c || is_lower c then
        if pending && started then "-"%char :: c :: slug_chars false true rest
        else c :: slug_chars false true rest
      else slug_chars true started rest
  end.

Definition slugify (v : JsVal) : Completion string :=
  match v with
  | VStr s => Normal (string_of_list_ascii (slug_chars false false (list_ascii_of_string s)))
  | _ => Throw TypeError
  end.

(** The double of a natural number, exact below 2^53: one addition and
    one doubling for each binary digit. *)
Fixpoint double_of_positive (p : positive) : PrimFloat.float :=
  match p with
  | xH => PrimFloat.one
  | xO q => PrimFloat.mul PrimFloat.two (double_of_positive q)
  | xI q =>
      PrimFloat.add (PrimFloat.mul PrimFloat.two (double_of_positive q))
                    PrimFloat.one
  end.

Definition double_of_natural (n : Z) : PrimFloat.float :=
  match n with
  | Zpos p => double_of_positive p
  | _ => PrimFloat.zero
  end.

(** The number a literal of digits [n] names, with or without a minus
    sign before it; literals from 2^53 on are not read. *)
Definition number_literal (negative : bool) (n : Z) : option JsVal :=
  if (n <? 9007199254740992)%Z then
    let x := double_of_natural n in
    Some (VNum (if negative then PrimFloat.opp x else x))
  else None.

(** The greatest natural number below [2 ^ bits] above [acc] whose double
    is at most [a], found digit by digit. *)
Fixpoint floor_below (bits : nat) (acc : Z) (a : PrimFloat.float) : Z :=
  match bits with
  | 0 => acc
  | S bits =>
      let next := (acc + 2 ^ Z.of_nat bits)%Z in
      if PrimFloat.leb (double_of_natural next) a then floor_below bits next a
      else floor_below bits acc a
  end.

(** The integer a double stands for in size, when it is one below 2^53. *)
Definition integer_of (x : PrimFloat.float) : option Z :=
  let a := PrimFloat.abs x in
  let z := floor_below 53 0 a in
  if PrimFloat.eqb (double_of_natural z) a then Some z else None.

(** [Number.prototype.toString] on the numbers the samples can hold: the
    integers below 2^53 in size print as their decimal digits, both zeros
    as [0]; not-a-number and the infinities print as their names.  A
    number with a fraction or beyond 2^53 is outside the samples, and the
    text of not-a-number stands in for its text. *)
Definition number_text (x : PrimFloat.float) : string :=
  if PrimFloat.is_nan x then "NaN"
  else if PrimFloat.is_infinity x then
    if PrimFloat.ltb x PrimFloat.zero then "-Infinity" else "Infinity"
  else
    match integer_of x with
    | Some z =>
        if PrimFloat.ltb x PrimFloat.zero then "-" +:+ pretty z else pretty z
    | None => "NaN"
    end.

(** [JSON.parse] on texts whose numbers are integers below 2^53 in size:
    literals, strings with the two-character escapes, arrays and objects. *)
Fixpoint skip_ws (cs : list ascii) : list ascii :=
  match cs with
  | c :: rest =>
      if (nat_of_ascii c =? 32) || (nat_of_ascii c =? 9)
         || (nat_of_ascii c =? 10) || (nat_of_ascii c =? 13)
      then skip_ws rest else cs
  | [] => []
  end.

Fixpoint take_digits (cs : list ascii) : list ascii * list ascii :=
  match cs with
  | c :: rest =>
      if is_digit c then
        let '(ds, r) := take_digits rest in (c :: ds, r)
      else ([], cs)
  | [] => ([], [])
  end.

Definition digits_value (ds : list ascii) : Z :=
  fold_left (fun acc c => (acc * 10 + Z.of_nat (nat_of_ascii c - 48))%Z) ds 0%Z.

Definition parse_int (cs : list ascii) : option (Z * list ascii) :=
  match take_digits cs with
  | ([], _) => None
  | (d :: ds, rest) =>
      if (nat_of_ascii d =? 48) && negb (match ds with [] => true | _ => false end)
      then None
      else
        match rest with
        | "."%char :: _ | "e"%char :: _ | "E"%char :: _ => None
        | _ => Some (digits_value (d :: ds), rest)
        end
  end.

Fixpoint parse_chars (cs : list ascii) : option (list ascii * list ascii) :=
  match cs with
  | [] => None
  | c :: rest =>
      if nat_of_ascii c =? 34 then Some ([], rest)
      else if nat_of_ascii c =? 92 then
        match rest with
        | e :: rest' =>
            let out :=
              if nat_of_ascii e =? 34 then Some e
              else if nat_of_ascii e =? 92 then Some e
              else if nat_of_ascii e =? 47 then Some e
              else if nat_of_ascii e =? 110 then Some (ascii_of_nat 10)
              else if nat_of_ascii e =? 116 then Some (ascii_of_nat 9)
              else if nat_of_ascii e =? 114 then Some (ascii_of_nat 13)
              else if nat_of_ascii e =? 98 then Some (ascii_of_nat 8)
              else if nat_of_ascii e =? 102 then Some (ascii_of_nat 12)
              else None in
            match out, parse_chars rest' with
            | Some o, Some (s, r) => Some (o :: s, r)
            | _, _ => None
            end
        | [] => None
        end
      else if nat_of_ascii c <? 32 then None
      else
        match parse_chars rest with
        | Some (s, r) => Some (c :: s, r)
        | None => None
        end
  end.

Fixpoint parse_value (fuel : nat) (cs : list ascii)
  : option (JsVal * list ascii) :=
  match fuel with
  | 0 => None
  | S fuel =>
      match skip_ws cs with
      | "n"%char :: "u"%char :: "l"%char :: "l"%char :: rest =>
          Some (VNull, rest)
      | "t"%char :: "r"%char :: "u"%char :: "e"%char :: rest =>
          Some (VBool true, rest)
      | "f"%char :: "a"%char :: "l"%char :: "s"%char :: "e"%char :: rest =>
          Some (VBool false, rest)
      | "034"%char :: rest =>
          match parse_chars rest with
          | Some (s, r) => Some (VStr (string_of_list_ascii s), r)
          | None => None
          end
      | "["%char :: rest =>
          match skip_ws rest with
          | "]"%char :: r => Some (VArr [], r)
          | _ =>
              match parse_items fuel rest with
              | Some (vs, r) => Some (VArr vs, r)
              | None => None
              end
          end
      | "{"%char :: rest =>
          match skip_ws rest with
          | "}"%char :: r => Some (VObj [], r)
          | _ =>
              match parse_members fuel rest with
              | Some (ms, r) => Some (VObj ms, r)
              | None => None
              end
          end
      | "-"%char :: rest =>
          match parse_int rest with
          | Some (n, r) =>
              match number_literal true n with
              | Some v => Some (v, r)
              | None => None
              end
          | None => None
          end
      | rest =>
          match parse_int rest with
          | Some (n, r) =>
              match number_literal false n with
              | Some v => Some (v, r)
              | None => None
              end
          | None => None
          end
      end
  end
with parse_items (fuel : nat) (cs : list ascii)
  : option (list JsVal * list ascii) :=
  match fuel with
  | 0 => None
  | S fuel =>
      match parse_value fuel cs with
      | Some (v, r) =>
          match skip_ws r with
          | "]"%char :: r' => Some ([v], r')
          | ","%char :: r' =>
              match parse_items fuel r' with
              | Some (vs, r'') => Some (v :: vs, r'')
              | None => None
              end
          | _ => None
          end
      | None => None
      end
  end
with parse_members (fuel : nat) (cs : list ascii)
  : option (list (string * JsVal) * list ascii) :=
  match fuel with
  | 0 => None
  | S fuel =>
      match skip_ws cs with
      | "034"%char :: rest =>
          match parse_chars rest with
          | Some (k, r) =>
              match skip_ws r with
              | ":"%char :: r1 =>
                  match parse_value fuel r1 with
                  | Some (v, r2) =>
                      match skip_ws r2 with
                      | "}"%char :: r3 =>
                          Some ([(string_of_list_ascii k, v)], r3)
                      | ","%char :: r3 =>
                          match parse_members fuel r3 with
                          | Some (ms, r4) =>
                              Some ((string_of_list_ascii k, v) :: ms, r4)
                          | None => None
                          end
                      | _ => None
                      end
                  | None => None
                  end
              | _ => None
              end
          | None => None
          end
      | _ => None
      end
  end.

Definition parse_json (s : string) : option JsVal :=
  match parse_value (S (String.length s)) (list_ascii_of_string s) with
  | Some (v, rest) =>
      match skip_ws rest with
      | [] => Some v
      | _ => None
      end
  | None => None
  end.

(** An object id in text: twenty-four hexadecimal digits. *)
Definition hex24 (s : string) : bool :=
  (String.length s =? 24) && forallb is_hex (list_ascii_of_string s).

(** The next id counts the documents of the collection. *)
Definition next_id (db : Store) : string :=
  let n := pretty (size db) in
  string_of_list_ascii (repeat "0"%char (24 - String.length n)) +:+ n.

#[export] Instance platform : Platform := {|
  generateSlug := slugify;
  JSON_parse := parse_json;
  Number_toString := number_text;
  isValidObjectId := hex24;
  storeAccepts := fun _ _ _ => true;
  newObjectId := next_id
|}.

End Concrete.

(** ** The handlers, branch by branch *)

(** ** Sample data

    Callers, a stored post and request bodies, on the platform above. *)
Module Samples.
Import Concrete.

Definition oid0 : string := "000000000000000000000000".
Definition oid1 : string := "000000000000000000000001".

Definition alice : User := mkUser "64b000000000000000000001" "author".
Definition bob : User := mkUser "64b000000000000000000002" "author".
Definition root : User := mkUser "64b000000000000000000003" "admin".

(** A post of alice. *)
Definition post0 : PostDoc :=
  {| post_title := VStr "Old title";
     post_slug := VStr "old-title";
     post_content := VStr "Old content";
     post_author := user_id alice;
     post_category := VStr "64c000000000000000000001";
     post_tags := VArr [];
     post_seo := VObj [("title", VStr "old")];
     post_featuredImage := None;
     post_published := false |}.

Definition db0 : Store := {[ oid0 := post0 ]}.

(** A body with none of the seven names. *)
Definition no_fields : Body :=
  mkBody VUndefined VUndefined VUndefined VUndefined VUndefined VUndefined
         VUndefined.

(** The example body of the spec: title, content, category and an [seo]
    object, nothing else. *)
Definition hello : Body :=
  mkBody (VStr "Hello World") VUndefined (VStr "...")
         (VStr "64c000000000000000000001") VUndefined
         (VObj [("title", VStr "x")]) VUndefined.

Definition with_title (v : JsVal) (b : Body) : Body :=
  mkBody v (body_slug b) (body_content b) (body_category b) (body_tags b)
         (body_seo b) (body_published b).
Definition with_slug (v : JsVal) (b : Body) : Body :=
  mkBody (body_title b) v (body_content b) (body_category b) (body_tags b)
         (body_seo b) (body_published b).
Definition with_tags (v : JsVal) (b : Body) : Body :=
  mkBody (body_title b) (body_slug b) (body_content b) (body_category b) v
         (body_seo b) (body_published b).
Definition with_seo (v : JsVal) (b : Body) : Body :=
  mkBody (body_title b) (body_slug b) (body_content b) (body_category b)
         (body_tags b) v (body_published b).
Definition with_published (v : JsVal) (b : Body) : Body :=
  mkBody (body_title b) (body_slug b) (body_content b) (body_category b)
         (body_tags b) (body_seo b) v.

(** A request for [oid] by [u] carrying [b], without an upload. *)
Definition request (oid : string) (u : option User) (b : Body) : AuthRequest :=
  mkReq oid u (Some b) None.

(** Bob, neither author nor admin, aims at alice's post. *)
Definition bob_retitles : AuthRequest :=
  request oid0 (Some bob) (with_title (VStr "Mine now") no_fields).

(** Requests without a caller: on alice's post, and on an id that no
    post has. *)
Definition anonymous_on_post : AuthRequest := request oid0 None no_fields.
Definition anonymous_probe : AuthRequest := request oid1 None no_fields.

(** Creates: the spec's example; without a title; with tags that are
    the empty string; with tags and with seo that do not parse; with a
    slug that is a non-empty string, the empty string, an array. *)
Definition create_hello : AuthRequest := request "" (Some alice) hello.
Definition create_anonymous : AuthRequest := request "" None hello.
Definition create_untitled : AuthRequest :=
  request "" (Some alice) (with_title VUndefined hello).
Definition create_empty_tags : AuthRequest :=
  request "" (Some alice) (with_tags (VStr "") hello).
Definition create_broken_tags : AuthRequest :=
  request "" (Some alice) (with_tags (VStr "[oops") hello).
Definition create_with_slug : AuthRequest :=
  request "" (Some alice) (with_slug (VStr "my-slug") hello).
Definition create_empty_slug : AuthRequest :=
  request "" (Some alice) (with_slug (VStr "") hello).
Definition create_array_slug : AuthRequest :=
  request "" (Some alice) (with_slug (VArr [VStr "a"; VStr "b"]) hello).
Definition create_published : AuthRequest :=
  request "" (Some alice) (with_published (VStr "true") hello).

(** Updates of alice's post by alice. *)
Definition alice_retitles : AuthRequest :=
  request oid0 (Some alice) (with_title (VStr "New title") no_fields).
Definition alice_empty_title : AuthRequest :=
  request oid0 (Some alice) (with_title (VStr "") no_fields).
Definition alice_empty_seo : AuthRequest :=
  request oid0 (Some alice) (with_seo (VStr "") no_fields).
Definition alice_broken_tags : AuthRequest :=
  request oid0 (Some alice)
          (with_tags (VStr "[oops") (with_title (VStr "New title") no_fields)).
Definition alice_publishes : AuthRequest :=
  request oid0 (Some alice) (with_published (VStr "true") no_fields).
Definition anonymous_broken_tags : AuthRequest :=
  request oid0 None (with_tags (VStr "[oops") no_fields).

(** A caller whose id is the empty string creates the example post. *)
Definition nameless : User := mkUser "" "author".
Definition create_nameless : AuthRequest := request "" (Some nameless) hello.

(** Alice deletes her post; root asks again. *)
Definition alice_deletes : AuthRequest := request oid0 (Some alice) no_fields.
Definition root_deletes : AuthRequest := request oid0 (Some root) no_fields.

End Samples.

(** More sample data: stamps, a second post, and traffic for the router. *)
Module Traffic.
Import Concrete Samples.
Local Open Scope nat_scope.

(** The ids of [next_id] count upwards, and so do their stamps. *)
#[export] Instance stamps : Timestamps := {|
  createdAt := fun oid => digits_value (list_ascii_of_string oid)
|}.

(** A post of bob, created after alice's. *)
Definition post1 : PostDoc :=
  {| post_title := VStr "Second";
     post_slug := VStr "second";
     post_content := VStr "More";
     post_author := user_id bob;
     post_category := VStr "64c000000000000000000001";
     post_tags := VArr [];
     post_seo := VObj [];
     post_featuredImage := None;
     post_published := true |}.

Definition db1 : Store := <[ oid1 := post1 ]> db0.

(** An id that is not twenty-four hexadecimal digits. *)
Definition bad_id : AuthRequest := request "not-an-id" (Some root) hello.

(** Reads of alice's post and of the id that [create_hello] will get. *)
Definition read_post0 : AuthRequest := request oid0 None no_fields.
Definition read_post1 : AuthRequest := request oid1 None no_fields.

(** Alice deletes the post under [oid1]. *)
Definition alice_deletes_new : AuthRequest :=
  request oid1 (Some alice) no_fields.

(** Requests without caller identity, as the router gets them: a create,
    an update and a delete of alice's post, a read, the listing. *)
Definition anonymous_traffic : list Incoming :=
  [ mkIncoming POST [] create_anonymous;
    mkIncoming PUT [oid0] (request "" None (with_title (VStr "Taken") no_fields));
    mkIncoming DELETE [oid0] (request "" None no_fields);
    mkIncoming GET [oid0] (request "" None no_fields);
    mkIncoming GET [] (request "" None no_fields) ].

(** Mixed traffic with callers. *)
Definition mixed_traffic : list Incoming :=
  [ mkIncoming POST [] create_hello;
    mkIncoming PUT [oid0] (request "" (Some alice) (with_title (VStr "") no_fields));
    mkIncoming PUT [oid0] (request "" (Some root) (with_title (VStr "By root") no_fields));
    mkIncoming DELETE [oid1] (request "" (Some bob) no_fields);
    mkIncoming OtherMethod [oid0] (request "" (Some root) no_fields) ].

(** Traffic without a DELETE: a create, updates by root and by bob, a
    read. *)
Definition editing_traffic : list Incoming :=
  [ mkIncoming POST [] create_hello;
    mkIncoming PUT [oid0] (request "" (Some root) (with_title (VStr "By root") no_fields));
    mkIncoming PUT [oid0] (request "" (Some bob) (with_title (VStr "Mine now") no_fields));
    mkIncoming GET [oid0] (request "" None no_fields) ].

(** Reads, and a verb the router does not register. *)
Definition reading_traffic : list Incoming :=
  [ mkIncoming GET [] (request "" None no_fields);
    mkIncoming GET [oid0] (request "" (Some bob) no_fields);
    mkIncoming OtherMethod [oid0] (request "" (Some root) no_fields) ].

(** Bob and callers without identity go for alice's post. *)
Definition foreign_traffic : list Incoming :=
  [ mkIncoming PUT [oid0] (request "" (Some bob) (with_title (VStr "Mine now") no_fields));
    mkIncoming DELETE [oid0] (request "" (Some bob) no_fields);
    mkIncoming PUT [oid0] (request "" None (with_title (VStr "Taken") no_fields));
    mkIncoming DELETE [oid0] (request "" None no_fields);
    mkIncoming POST [] (request "" (Some bob) hello) ].

End Traffic.

(** Opens a handler down to its sequence of reads, tests and writes, and
    follows the branch that the equations among the hypotheses select. *)
Ltac open_handler :=
  unfold addPost, updatePost, deletePost, try_catch, bind, ret, throw, lift,
    Post_findById, Post_create, Post_save, Post_findByIdAndDelete;
  cbv zeta.

Ltac follow_branch :=
  repeat match goal with
         | Heq : ?l = _ |- context [?l] =>
             rewrite Heq; cbn [negb destructure ret throw fst snd]
         end.

Section Branches.
Context `{Platform}.

Lemma forbidden_true (u : User) (existing : PostDoc) :
  user_role u <> "admin" -> user_id u <> post_author existing ->
  forbidden u existing = true.
Proof.
  intros Hrole Hid. unfold forbidden.
  apply andb_true_intro; split; apply negb_true_iff, String.eqb_neq; congruence.
Qed.

Lemma forbidden_owner (u : User) (existing : PostDoc) :
  user_id u = post_author existing -> forbidden u existing = false.
Proof.
  intros Hid. unfold forbidden. rewrite Hid, String.eqb_refl.
  apply andb_false_r.
Qed.

Lemma forbidden_admin (u : User) (existing : PostDoc) :
  user_role u = "admin" -> forbidden u existing = false.
Proof. intros Hrole. unfold forbidden. by rewrite Hrole. Qed.

Section Update.
Variables (req : AuthRequest) (db : Store).

Lemma updatePost_invalid :
  isValidObjectId (params_id req) = false ->
  updatePost req db = (mkRes 400 (ErrorBody "Invalid ID" None), db).
Proof. intros Hid. open_handler. by follow_branch. Qed.

Hypothesis Hvalid : isValidObjectId (params_id req) = true.

Lemma updatePost_absent :
  db !! params_id req = None ->
  updatePost req db = (mkRes 404 (ErrorBody "Post not found" None), db).
Proof.
  intros Hnone. open_handler. by follow_branch.
Qed.

Variable existing : PostDoc.
Hypothesis Hfound : db !! params_id req = Some existing.

Lemma updatePost_unauthenticated :
  user req = None ->
  updatePost req db = (mkRes 401 (ErrorBody "Unauthorized" None), db).
Proof.
  intros Huser. open_handler. by follow_branch.
Qed.

Variable u : User.
Hypothesis Huser : user req = Some u.

Lemma updatePost_forbidden :
  forbidden u existing = true ->
  updatePost req db = (mkRes 403 (ErrorBody "Forbidden" None), db).
Proof.
  intros Hforb. open_handler. by follow_branch.
Qed.

Hypothesis Hallowed : forbidden u existing = false.

Lemma updatePost_no_body :
  body req = None ->
  updatePost req db
  = (mkRes 400 (ErrorBody "Invalid update request" (Some TypeError)), db).
Proof.
  intros Hbody. open_handler. by follow_branch.
Qed.

Variable b : Body.
Hypothesis Hbody : body req = Some b.

Lemma updatePost_bad_json (res : Response) :
  apply_body req b existing = inl res ->
  updatePost req db = (res, db).
Proof.
  intros Happ. open_handler. by follow_branch.
Qed.

Lemma updatePost_rejected (d : PostDoc) :
  apply_body req b existing = inr d ->
  storeAccepts db (params_id req) d = false ->
  updatePost req db
  = (mkRes 400 (ErrorBody "Invalid update request" (Some ValidationError)),
     db).
Proof.
  intros Happ Hacc.
  open_handler. by follow_branch.
Qed.

Lemma updatePost_saved (d : PostDoc) :
  apply_body req b existing = inr d ->
  storeAccepts db (params_id req) d = true ->
  updatePost req db
  = (mkRes 200 (PostBody (Some d)), <[params_id req := d]> db).
Proof.
  intros Happ Hacc.
  open_handler. follow_branch. by rewrite lookup_insert_eq.
Qed.
End Update.

Section Delete.
Variables (req : AuthRequest) (db : Store).

Lemma deletePost_invalid :
  isValidObjectId (params_id req) = false ->
  deletePost req db = (mkRes 400 (ErrorBody "Invalid ID" None), db).
Proof. intros Hid. open_handler. by follow_branch. Qed.

Hypothesis Hvalid : isValidObjectId (params_id req) = true.

Lemma deletePost_absent :
  db !! params_id req = None ->
  deletePost req db = (mkRes 404 (ErrorBody "Post not found" None), db).
Proof.
  intros Hnone. open_handler. by follow_branch.
Qed.

Variable existing : PostDoc.
Hypothesis Hfound : db !! params_id req = Some existing.

Lemma deletePost_unauthenticated :
  user req = None ->
  deletePost req db = (mkRes 401 (ErrorBody "Unauthorized" None), db).
Proof.
  intros Huser. open_handler. by follow_branch.
Qed.

Variable u : User.
Hypothesis Huser : user req = Some u.

Lemma deletePost_forbidden :
  forbidden u existing = true ->
  deletePost req db = (mkRes 403 (ErrorBody "Forbidden" None), db).
Proof.
  intros Hforb. open_handler. by follow_branch.
Qed.

Lemma deletePost_deleted :
  forbidden u existing = false ->
  deletePost req db
  = (mkRes 200 (MessageBody "Post deleted"), delete (params_id req) db).
Proof.
  intros Hallowed.
  open_handler. by follow_branch.
Qed.
End Delete.

Section Create.
Variables (req : AuthRequest) (db : Store).

Lemma addPost_no_body :
  body req = None ->
  addPost req db
  = (mkRes 400 (ErrorBody "Invalid data" (Some TypeError)), db).
Proof. intros Hbody. open_handler. by follow_branch. Qed.

Variable b : Body.
Hypothesis Hbody : body req = Some b.

Lemma addPost_lacking :
  lacks_required b = true ->
  addPost req db
  = (mkRes 400
       (ErrorBody "title, content, category and seo are required" None),
     db).
Proof. intros Hlack. open_handler. by follow_branch. Qed.

Hypothesis Hfull : lacks_required b = false.

Lemma addPost_slug_throws (e : Exn) :
  finalSlug b = Throw e ->
  addPost req db = (mkRes 400 (ErrorBody "Invalid data" (Some e)), db).
Proof. intros Hslug. open_handler. by follow_branch. Qed.

Variable slug : string.
Hypothesis Hslug : finalSlug b = Normal slug.

Lemma addPost_bad_tags :
  parsedTags b = None ->
  addPost req db = (mkRes 400 (ErrorBody "Invalid tags JSON" None), db).
Proof. intros Htags. open_handler. by follow_branch. Qed.

Variable tags : JsVal.
Hypothesis Htags : parsedTags b = Some tags.

Lemma addPost_bad_seo :
  parsedSeo b = None ->
  addPost req db = (mkRes 400 (ErrorBody "Invalid SEO JSON" None), db).
Proof. intros Hseo. open_handler. by follow_branch. Qed.

Variable seo : JsVal.
Hypothesis Hseo : parsedSeo b = Some seo.

Lemma addPost_rejected :
  storeAccepts db (newObjectId db) (newPost req b slug tags seo) = false ->
  addPost req db
  = (mkRes 400 (ErrorBody "Invalid data" (Some ValidationError)), db).
Proof. intros Hacc. open_handler. by follow_branch. Qed.

Hypothesis Hacc :
  storeAccepts db (newObjectId db) (newPost req b slug tags seo) = true.

Lemma addPost_duplicate (d : PostDoc) :
  db !! newObjectId db = Some d ->
  addPost req db
  = (mkRes 400 (ErrorBody "Invalid data" (Some DuplicateKey)), db).
Proof. intros Hdup. open_handler. by follow_branch. Qed.

Lemma addPost_created :
  db !! newObjectId db = None ->
  addPost req db
  = (mkRes 201 (PostBody (Some (newPost req b slug tags seo))),
     <[newObjectId db := newPost req b slug tags seo]> db).
Proof.
  intros Hfresh. open_handler. follow_branch.
  by rewrite lookup_insert_eq.
Qed.
End Create.

(** A request either leaves the collection as it was and answers 400, or
    inserts exactly the object built from it and answers 201. *)
Lemma addPost_outcome (req : AuthRequest) (db : Store) :
  (status (addPost req db).1 = 400 /\ (addPost req db).2 = db)
  \/ (exists b slug tags seo,
        body req = Some b /\ lacks_required b = false
        /\ finalSlug b = Normal slug /\ parsedTags b = Some tags
        /\ parsedSeo b = Some seo /\ db !! newObjectId db = None
        /\ addPost req db
           = (mkRes 201 (PostBody (Some (newPost req b slug tags seo))),
              <[newObjectId db := newPost req b slug tags seo]> db)).
Proof.
  destruct (body req) as [b|] eqn:Hbody;
    [|left; by rewrite addPost_no_body].
  destruct (lacks_required b) eqn:Hlack;
    [left; by rewrite (addPost_lacking _ _ b)|].
  destruct (finalSlug b) as [slug|e] eqn:Hslug;
    [|left; by rewrite (addPost_slug_throws _ _ b Hbody Hlack e)].
  destruct (parsedTags b) as [tags|] eqn:Htags;
    [|left; by rewrite (addPost_bad_tags _ _ b Hbody Hlack slug)].
  destruct (parsedSeo b) as [seo|] eqn:Hseo;
    [|left; by rewrite (addPost_bad_seo _ _ b Hbody Hlack slug Hslug tags)].
  destruct (storeAccepts db (newObjectId db) (newPost req b slug tags seo))
    eqn:Hacc;
    [|left; by rewrite (addPost_rejected _ _ b Hbody Hlack slug Hslug tags Htags seo)].
  destruct (db !! newObjectId db) as [d|] eqn:Hfresh;
    [left; by rewrite (addPost_duplicate _ _ b Hbody Hlack slug Hslug tags Htags seo Hseo Hacc d)|].
  right. exists b, slug, tags, seo.
  repeat split; try done.
  by apply addPost_created.
Qed.

(** An answer of 201 pins the second case. *)
Lemma addPost_201 (req : AuthRequest) (db : Store) :
  status (addPost req db).1 = 201 ->
  exists b slug tags seo,
    body req = Some b /\ lacks_required b = false
    /\ finalSlug b = Normal slug /\ parsedTags b = Some tags
    /\ parsedSeo b = Some seo /\ db !! newObjectId db = None
    /\ addPost req db
       = (mkRes 201 (PostBody (Some (newPost req b slug tags seo))),
          <[newObjectId db := newPost req b slug tags seo]> db).
Proof.
  intros Hst. destruct (addPost_outcome req db) as [[H400 _]|Hex]; [|done].
  rewrite H400 in Hst. discriminate.
Qed.

(** *** What the assignments of an update leave in the document *)

Lemma forbidden_false (u : User) (existing : PostDoc) :
  user_role u = "admin" \/ user_id u = post_author existing ->
  forbidden u existing = false.
Proof.
  intros [Hrole|Hid]; [by apply forbidden_admin|by apply forbidden_owner].
Qed.

Lemma parse_if_string_text (s : string) :
  parse_if_string (VStr s) = JSON_parse s.
Proof. reflexivity. Qed.

Lemma truthy_text (s : string) : s <> "" -> truthy (VStr s) = true.
Proof. intros Hs. cbn [truthy]. by apply negb_true_iff, String.eqb_neq. Qed.

Lemma apply_body_inl (req : AuthRequest) (b : Body) (existing : PostDoc)
    (res : Response) :
  apply_body req b existing = inl res -> status res = 400.
Proof.
  unfold apply_body. intros Happ.
  repeat match type of Happ with
         | context [if ?c then _ else _] => destruct c
         | context [_ <$> ?o] => destruct o; cbn [fmap option_fmap option_map] in Happ
         end;
    by inversion Happ.
Qed.

Lemma apply_body_bad_json (req : AuthRequest) (b : Body)
    (existing : PostDoc) (s : string) :
  body_tags b = VStr s \/ body_seo b = VStr s ->
  s <> "" -> JSON_parse s = None ->
  exists res, apply_body req b existing = inl res /\ status res = 400.
Proof.
  intros Hfield Hs Hparse.
  destruct (apply_body req b existing) as [res|d] eqn:Happ.
  { exists res. split; [done|by apply (apply_body_inl req b existing)]. }
  exfalso. unfold apply_body in Happ.
  destruct Hfield as [Htags|Hseo].
  - rewrite Htags, (truthy_text s Hs), parse_if_string_text, Hparse in Happ.
    cbn [fmap option_fmap option_map] in Happ. discriminate.
  - rewrite Hseo, (truthy_text s Hs), parse_if_string_text, Hparse in Happ.
    cbn [fmap option_fmap option_map] in Happ.
    destruct (truthy (body_tags b));
      [destruct (parse_if_string (body_tags b));
       cbn [fmap option_fmap option_map] in Happ|];
      discriminate.
Qed.

Lemma apply_body_inr (req : AuthRequest) (b : Body) (existing d : PostDoc) :
  apply_body req b existing = inr d ->
  post_title d
  = (if truthy (body_title b) then body_title b else post_title existing)
  /\ post_slug d
     = (if truthy (body_slug b) then body_slug b else post_slug existing)
  /\ post_content d
     = (if truthy (body_content b) then body_content b
        else post_content existing)
  /\ post_category d
     = (if truthy (body_category b) then body_category b
        else post_category existing)
  /\ (if truthy (body_tags b)
      then parse_if_string (body_tags b) = Some (post_tags d)
      else post_tags d = post_tags existing)
  /\ (if truthy (body_seo b)
      then parse_if_string (body_seo b) = Some (post_seo d)
      else post_seo d = post_seo existing)
  /\ post_published d
     = match body_published b with
       | VUndefined => post_published existing
       | p => published_flag p
       end
  /\ post_featuredImage d
     = match file req with
       | Some f =>
           if String.eqb (file_path f) "" then post_featuredImage existing
           else Some (file_path f)
       | None => post_featuredImage existing
       end
  /\ post_author d = post_author existing.
Proof.
  unfold apply_body, assign_if_truthy. intros Happ.
  destruct (truthy (body_title b)), (truthy (body_slug b)),
    (truthy (body_content b)), (truthy (body_category b)),
    (truthy (body_tags b)), (truthy (body_seo b));
    try destruct (parse_if_string (body_tags b));
    try destruct (parse_if_string (body_seo b));
    cbn [fmap option_fmap option_map] in Happ; try discriminate;
    destruct (body_published b), (file req) as [f|];
    try destruct (String.eqb (file_path f) "");
    inversion Happ; subst d; cbn; repeat split; reflexivity.
Qed.

(** An update of an existing post either writes nothing and does not
    answer 200, or saves the document the assignments produced. *)
Lemma updatePost_outcome (req : AuthRequest) (db : Store)
    (existing : PostDoc) :
  db !! params_id req = Some existing ->
  ((updatePost req db).2 = db /\ status (updatePost req db).1 <> 200)
  \/ (exists u b d,
        isValidObjectId (params_id req) = true
        /\ user req = Some u /\ forbidden u existing = false
        /\ body req = Some b /\ apply_body req b existing = inr d
        /\ updatePost req db
           = (mkRes 200 (PostBody (Some d)), <[params_id req := d]> db)).
Proof.
  intros Hfound.
  destruct (isValidObjectId (params_id req)) eqn:Hvalid;
    [|left; by rewrite updatePost_invalid].
  destruct (user req) as [u|] eqn:Huser;
    [|left; by rewrite (updatePost_unauthenticated req db Hvalid existing)].
  destruct (forbidden u existing) eqn:Hforb;
    [left; by rewrite (updatePost_forbidden req db Hvalid existing Hfound u)|].
  destruct (body req) as [b|] eqn:Hbody;
    [|left; by rewrite (updatePost_no_body req db Hvalid existing Hfound u)].
  destruct (apply_body req b existing) as [res|d] eqn:Happ.
  { left.
    rewrite (updatePost_bad_json req db Hvalid existing Hfound u Huser Hforb
               b Hbody res Happ).
    cbn [fst snd]. rewrite (apply_body_inl req b existing res Happ). done. }
  destruct (storeAccepts db (params_id req) d) eqn:Hacc.
  - right. exists u, b, d. repeat split; try done.
    by apply (updatePost_saved req db Hvalid existing Hfound u Huser Hforb b).
  - left.
    by rewrite (updatePost_rejected req db Hvalid existing Hfound u Huser
                  Hforb b Hbody d Happ Hacc).
Qed.

End Branches.

(** ** Properties of the handlers *)

Section Properties.
Context `{Platform}.

(** C1. An update or a delete of an existing post by a caller who is not
    an admin and is not the post's author answers 403 Forbidden, and the
    collection, so the post with each of its fields, is as it was. *)
Theorem C1_forbidden_caller_changes_nothing
    (req : AuthRequest) (db : Store) (existing : PostDoc) (u : User) :
  isValidObjectId (params_id req) = true ->
  db !! params_id req = Some existing ->
  user req = Some u ->
  user_role u <> "admin" ->
  user_id u <> post_author existing ->
  (status (updatePost req db).1 = 403
   /\ (updatePost req db).2 = db
   /\ (updatePost req db).2 !! params_id req = Some existing)
  /\ (status (deletePost req db).1 = 403
      /\ (deletePost req db).2 = db
      /\ (deletePost req db).2 !! params_id req = Some existing).
Proof.
  intros Hvalid Hfound Huser Hrole Hid.
  pose proof (forbidden_true u existing Hrole Hid) as Hforb.
  rewrite (updatePost_forbidden req db Hvalid existing Hfound u Huser Hforb).
  rewrite (deletePost_forbidden req db Hvalid existing Hfound u Huser Hforb).
  by cbn [fst snd status].
Qed.

(** C2 (amended). An update of an existing post that carries no caller
    identity answers 401 Unauthorized and writes nothing; an update whose
    well-formed id matches no post answers 404 NotFound, whoever calls. *)
Theorem C2_update_unauthenticated_or_absent
    (req : AuthRequest) (db : Store) :
  isValidObjectId (params_id req) = true ->
  (forall existing,
      db !! params_id req = Some existing -> user req = None ->
      updatePost req db = (mkRes 401 (ErrorBody "Unauthorized" None), db))
  /\ (db !! params_id req = None ->
      updatePost req db = (mkRes 404 (ErrorBody "Post not found" None), db)).
Proof.
  intros Hvalid. split.
  - intros existing Hfound Huser.
    by apply (updatePost_unauthenticated req db Hvalid existing).
  - by apply updatePost_absent.
Qed.

(** C3. A create request that lacks [title], [content], [category] or
    [seo] answers 400 and creates nothing, whatever its other fields
    are.  A request without a body lacks all four. *)
Theorem C3_create_requires_fields (req : AuthRequest) (db : Store) :
  (forall b, body req = Some b ->
             body_title b = VUndefined \/ body_content b = VUndefined
             \/ body_category b = VUndefined \/ body_seo b = VUndefined) ->
  status (addPost req db).1 = 400 /\ (addPost req db).2 = db.
Proof.
  intros Hmissing. destruct (body req) as [b|] eqn:Hbody.
  - assert (lacks_required b = true) as Hlack.
    { unfold lacks_required.
      destruct (Hmissing b eq_refl) as [Hm|[Hm|[Hm|Hm]]]; rewrite Hm;
        cbn [truthy negb orb]; by rewrite ?orb_true_r. }
    by rewrite (addPost_lacking req db b Hbody Hlack).
  - by rewrite (addPost_no_body req db Hbody).
Qed.

(** C9. A delete of a well-formed id that the collection does not hold
    answers 404 NotFound; and of two deletes of one existing post, the
    first by its owner, the first succeeds and removes it and the second
    answers 404. *)
Theorem C9_delete_absent_and_twice (req req' : AuthRequest) (db : Store) :
  isValidObjectId (params_id req) = true ->
  params_id req' = params_id req ->
  (db !! params_id req = None ->
   deletePost req db = (mkRes 404 (ErrorBody "Post not found" None), db))
  /\ (forall existing u,
         db !! params_id req = Some existing ->
         user req = Some u ->
         user_id u = post_author existing ->
         status (deletePost req db).1 = 200
         /\ (deletePost req db).2 = delete (params_id req) db
         /\ status (deletePost req' (deletePost req db).2).1 = 404
         /\ (deletePost req' (deletePost req db).2).2 = (deletePost req db).2).
Proof.
  intros Hvalid Hsame. split.
  - by apply deletePost_absent.
  - intros existing u Hfound Huser Howner.
    rewrite (deletePost_deleted req db Hvalid existing Hfound u Huser
               (forbidden_owner u existing Howner)).
    cbn [fst snd status].
    rewrite (deletePost_absent req' (delete (params_id req) db)).
    + done.
    + by rewrite Hsame.
    + rewrite Hsame. apply lookup_delete_eq.
Qed.

(** C10. For a well-formed id that matches no post, update and delete
    answer 404 NotFound whether or not the request carries a caller
    identity: the lookup comes before the identity and ownership tests.
    So for a caller without identity the answer is 404 exactly when the
    post is absent. *)
Theorem C10_lookup_precedes_authentication (req : AuthRequest) (db : Store) :
  isValidObjectId (params_id req) = true ->
  (db !! params_id req = None ->
   updatePost req db = (mkRes 404 (ErrorBody "Post not found" None), db)
   /\ deletePost req db = (mkRes 404 (ErrorBody "Post not found" None), db))
  /\ (user req = None ->
      (status (updatePost req db).1 = 404 <-> db !! params_id req = None)
      /\ (status (deletePost req db).1 = 404 <-> db !! params_id req = None)).
Proof.
  intros Hvalid. split.
  - intros Hnone. split; [by apply updatePost_absent|by apply deletePost_absent].
  - intros Huser. destruct (db !! params_id req) as [existing|] eqn:Hfound.
    + rewrite (updatePost_unauthenticated req db Hvalid existing Hfound Huser).
      rewrite (deletePost_unauthenticated req db Hvalid existing Hfound Huser).
      cbn [fst status]. split; split; discriminate.
    + rewrite (updatePost_absent req db Hvalid Hfound).
      rewrite (deletePost_absent req db Hvalid Hfound).
      by cbn [fst status].
Qed.

(** C4 (amended). A create request whose [tags] is a non-empty string
    that is not JSON, or whose [seo] is a string that is not JSON,
    answers 400 and creates nothing.  An update of an existing post by
    its author or an admin whose [tags] or [seo] is a non-empty string
    that is not JSON answers 400 and the stored post is as it was. *)
Theorem C4_malformed_json_writes_nothing
    (req : AuthRequest) (db : Store) (b : Body) (s : string) :
  body req = Some b ->
  JSON_parse s = None ->
  ((body_tags b = VStr s /\ s <> "") \/ body_seo b = VStr s ->
   status (addPost req db).1 = 400 /\ (addPost req db).2 = db)
  /\ (forall existing u,
         isValidObjectId (params_id req) = true ->
         db !! params_id req = Some existing ->
         user req = Some u ->
         user_role u = "admin" \/ user_id u = post_author existing ->
         (body_tags b = VStr s \/ body_seo b = VStr s) /\ s <> "" ->
         status (updatePost req db).1 = 400
         /\ (updatePost req db).2 = db
         /\ (updatePost req db).2 !! params_id req = Some existing).
Proof.
  intros Hbody Hparse. split.
  - intros Hbad.
    destruct (addPost_outcome req db)
      as [H400|(b' & slug & tags & seo & Hb' & _ & _ & Htags & Hseo & _)];
      [done|exfalso].
    rewrite Hbody in Hb'. injection Hb' as <-.
    destruct Hbad as [[Ht Hs]|Hse].
    + unfold parsedTags in Htags.
      rewrite Ht, (truthy_text s Hs), parse_if_string_text, Hparse in Htags.
      discriminate.
    + unfold parsedSeo in Hseo.
      rewrite Hse, parse_if_string_text, Hparse in Hseo. discriminate.
  - intros existing u Hvalid Hfound Huser Hauth [Hfield Hs].
    destruct (apply_body_bad_json req b existing s Hfield Hs Hparse)
      as (res & Happ & Hres).
    rewrite (updatePost_bad_json req db Hvalid existing Hfound u Huser
               (forbidden_false u existing Hauth) b Hbody res Happ).
    by cbn [fst snd].
Qed.

(** C5 (amended). In an update of an existing post by its author or an
    admin, a field that the body omits, or carries with a falsy value,
    keeps its stored value, whatever the answer; [published] keeps it
    when omitted and the image when no file path came.  When the update
    succeeds (200), a truthy [title], [slug], [content] or [category]
    overwrites the stored one, truthy [tags] and [seo] overwrite it with
    their value, parsed when it is a string, a supplied [published]
    with its coercion, and an uploaded file with its path.  The author
    stays. *)
Theorem C5_partial_update
    (req : AuthRequest) (db : Store) (existing : PostDoc) (u : User)
    (b : Body) :
  isValidObjectId (params_id req) = true ->
  db !! params_id req = Some existing ->
  user req = Some u ->
  user_role u = "admin" \/ user_id u = post_author existing ->
  body req = Some b ->
  exists d,
    (updatePost req db).2 !! params_id req = Some d
    /\ post_author d = post_author existing
    /\ ((truthy (body_title b) = false -> post_title d = post_title existing)
        /\ (truthy (body_slug b) = false -> post_slug d = post_slug existing)
        /\ (truthy (body_content b) = false ->
            post_content d = post_content existing)
        /\ (truthy (body_category b) = false ->
            post_category d = post_category existing)
        /\ (truthy (body_tags b) = false -> post_tags d = post_tags existing)
        /\ (truthy (body_seo b) = false -> post_seo d = post_seo existing)
        /\ (body_published b = VUndefined ->
            post_published d = post_published existing)
        /\ (file_path <$> file req = None \/ file_path <$> file req = Some "" ->
            post_featuredImage d = post_featuredImage existing))
    /\ (status (updatePost req db).1 = 200 ->
        payload (updatePost req db).1 = PostBody (Some d)
        /\ (truthy (body_title b) = true -> post_title d = body_title b)
        /\ (truthy (body_slug b) = true -> post_slug d = body_slug b)
        /\ (truthy (body_content b) = true -> post_content d = body_content b)
        /\ (truthy (body_category b) = true ->
            post_category d = body_category b)
        /\ (truthy (body_tags b) = true ->
            parse_if_string (body_tags b) = Some (post_tags d))
        /\ (truthy (body_seo b) = true ->
            parse_if_string (body_seo b) = Some (post_seo d))
        /\ (body_published b <> VUndefined ->
            post_published d = published_flag (body_published b))
        /\ (forall path, file_path <$> file req = Some path -> path <> "" ->
            post_featuredImage d = Some path)).
Proof.
  intros Hvalid Hfound Huser Hauth Hbody.
  destruct (updatePost_outcome req db existing Hfound)
    as [[Hsame Hnot]|(u' & b' & d & _ & _ & _ & Hb' & Happ & Hrun)].
  - exists existing. rewrite Hsame. repeat split; try done.
  - rewrite Hbody in Hb'. injection Hb' as <-.
    exists d. rewrite Hrun. cbn [fst snd status payload].
    rewrite lookup_insert_eq.
    destruct (apply_body_inr req b existing d Happ)
      as (Ht & Hsl & Hc & Hcat & Htg & Hseo & Hpub & Himg & Hau).
    split; [done|]. split; [done|]. split.
    + repeat split.
      * intros Hf. by rewrite Hf in Ht.
      * intros Hf. by rewrite Hf in Hsl.
      * intros Hf. by rewrite Hf in Hc.
      * intros Hf. by rewrite Hf in Hcat.
      * intros Hf. by rewrite Hf in Htg.
      * intros Hf. by rewrite Hf in Hseo.
      * intros Hf. by rewrite Hf in Hpub.
      * intros Hf. destruct (file req) as [f|]; [|done].
        destruct Hf as [Hf|Hf]; [discriminate|].
        injection Hf as Hf. by rewrite Hf in Himg.
    + intros _. repeat split.
      * intros Hf. by rewrite Hf in Ht.
      * intros Hf. by rewrite Hf in Hsl.
      * intros Hf. by rewrite Hf in Hc.
      * intros Hf. by rewrite Hf in Hcat.
      * intros Hf. by rewrite Hf in Htg.
      * intros Hf. by rewrite Hf in Hseo.
      * intros Hf. by destruct (body_published b).
      * intros path Hf Hne. destruct (file req) as [f|]; [|discriminate].
        injection Hf as Hf. rewrite Hf in Himg.
        apply String.eqb_neq in Hne. by rewrite Hne in Himg.
Qed.

(** C6 (amended). On a successful create, a slug supplied as a non-empty
    string is the created post's slug as it stands; a slug that is
    omitted, or supplied with a falsy value such as the empty string, is
    replaced by [generateSlug(title)]; any other supplied slug is stored
    as the text [toString()] gives for it. *)
Theorem C6_created_slug (req : AuthRequest) (db : Store) :
  status (addPost req db).1 = 201 ->
  exists b d,
    body req = Some b
    /\ payload (addPost req db).1 = PostBody (Some d)
    /\ db !! newObjectId db = None
    /\ (addPost req db).2 !! newObjectId db = Some d
    /\ (forall s, body_slug b = VStr s -> s <> "" -> post_slug d = VStr s)
    /\ (truthy (body_slug b) = false ->
        exists g, generateSlug (body_title b) = Normal g
                  /\ post_slug d = VStr g)
    /\ (truthy (body_slug b) = true ->
        exists t, toString (body_slug b) = Normal t /\ post_slug d = VStr t).
Proof.
  intros Hst.
  destruct (addPost_201 req db Hst)
    as (b & slug & tags & seo & Hbody & _ & Hslug & _ & _ & Hfresh & Hrun).
  exists b, (newPost req b slug tags seo). rewrite Hrun.
  cbn [fst snd payload]. rewrite lookup_insert_eq.
  unfold finalSlug in Hslug.
  repeat split; try done.
  - intros s Hs Hne. rewrite Hs, (truthy_text s Hne) in Hslug.
    cbn [toString] in Hslug. injection Hslug as <-. done.
  - intros Hf. rewrite Hf in Hslug. by exists slug.
  - intros Ht. rewrite Ht in Hslug. by exists slug.
Qed.

(** C7. On a successful create, the created post's author is the caller's
    id when the request carries a caller with a non-empty id, and the
    fixed identifier [68ae1145a564344c2e6e03fb] otherwise: when it carries
    no caller, or a caller whose id is empty. *)
Theorem C7_created_author (req : AuthRequest) (db : Store) :
  status (addPost req db).1 = 201 ->
  exists d,
    payload (addPost req db).1 = PostBody (Some d)
    /\ db !! newObjectId db = None
    /\ (addPost req db).2 !! newObjectId db = Some d
    /\ (forall u, user req = Some u -> user_id u <> "" ->
                  post_author d = user_id u)
    /\ (user req = None \/ (exists u, user req = Some u /\ user_id u = "") ->
        post_author d = "68ae1145a564344c2e6e03fb").
Proof.
  intros Hst.
  destruct (addPost_201 req db Hst)
    as (b & slug & tags & seo & _ & _ & _ & _ & _ & Hfresh & Hrun).
  exists (newPost req b slug tags seo). rewrite Hrun.
  cbn [fst snd payload]. rewrite lookup_insert_eq.
  repeat split; try done.
  - intros u Hu Hne. cbn [newPost post_author]. rewrite Hu. cbn [author_for].
    apply String.eqb_neq in Hne. by rewrite Hne.
  - intros [Hu|(u & Hu & Hempty)]; cbn [newPost post_author]; rewrite Hu;
      [done|].
    cbn [author_for]. by rewrite Hempty.
Qed.

(** [published === "true" || published === true], read back. *)
Lemma published_flag_true (v : JsVal) :
  published_flag v = true <-> v = VBool true \/ v = VStr "true".
Proof.
  split.
  - destruct v as [| |[]| |s| |]; cbn [published_flag]; try discriminate.
    + by left.
    + intros Hs. apply String.eqb_eq in Hs. right. by rewrite Hs.
  - by intros [->| ->].
Qed.

(** C8. On a successful create, the created post is published exactly
    when the supplied [published] is the boolean [true] or the string
    ["true"].  On an update, the stored flag stays as it was when the body
    does not supply [published]; when it is supplied and the update
    succeeds, the stored flag follows the same coercion. *)
Theorem C8_published_coercion (req : AuthRequest) (db : Store) (b : Body) :
  body req = Some b ->
  (status (addPost req db).1 = 201 ->
   exists d,
     payload (addPost req db).1 = PostBody (Some d)
     /\ (addPost req db).2 !! newObjectId db = Some d
     /\ (post_published d = true
         <-> body_published b = VBool true \/ body_published b = VStr "true"))
  /\ (forall existing,
         db !! params_id req = Some existing ->
         exists d,
           (updatePost req db).2 !! params_id req = Some d
           /\ (body_published b = VUndefined ->
               post_published d = post_published existing)
           /\ (body_published b <> VUndefined ->
               status (updatePost req db).1 = 200 ->
               (post_published d = true
                <-> body_published b = VBool true
                    \/ body_published b = VStr "true"))).
Proof.
  intros Hbody. split.
  - intros Hst.
    destruct (addPost_201 req db Hst)
      as (b' & slug & tags & seo & Hb' & _ & _ & _ & _ & _ & Hrun).
    rewrite Hbody in Hb'. injection Hb' as <-.
    exists (newPost req b slug tags seo). rewrite Hrun.
    cbn [fst snd payload]. rewrite lookup_insert_eq.
    repeat split; try done; apply published_flag_true.
  - intros existing Hfound.
    destruct (updatePost_outcome req db existing Hfound)
      as [[Hsame Hnot]|(u' & b' & d & _ & _ & _ & Hb' & Happ & Hrun)].
    + exists existing. rewrite Hsame. repeat split; try done.
    + rewrite Hbody in Hb'. injection Hb' as <-.
      exists d. rewrite Hrun. cbn [fst snd status]. rewrite lookup_insert_eq.
      destruct (apply_body_inr req b existing d Happ)
        as (_ & _ & _ & _ & _ & _ & Hpub & _).
      split; [done|]. split.
      * intros Hu. by rewrite Hu in Hpub.
      * intros Hsup _. rewrite <- published_flag_true.
        destruct (body_published b); try done; by rewrite Hpub.
Qed.

End Properties.

(** ** Beyond the claims: reads, frames and request sequences *)

Section Outcomes.
Context `{Platform}.

Lemma forbidden_false_inv (u : User) (existing : PostDoc) :
  forbidden u existing = false ->
  user_role u = "admin" \/ user_id u = post_author existing.
Proof.
  unfold forbidden. intros Hforb.
  apply andb_false_iff in Hforb as [Hrole|Hid].
  - left. by apply String.eqb_eq, negb_false_iff.
  - right. symmetry. by apply String.eqb_eq, negb_false_iff.
Qed.

(** Every run of [updatePost]: nothing written and one of four refusals,
    or the loaded document saved under its id. *)
Lemma updatePost_cases (req : AuthRequest) (db : Store) :
  ((updatePost req db).2 = db
   /\ (status (updatePost req db).1 = 400
       \/ status (updatePost req db).1 = 401
       \/ status (updatePost req db).1 = 403
       \/ status (updatePost req db).1 = 404))
  \/ (exists existing u b d,
        isValidObjectId (params_id req) = true
        /\ db !! params_id req = Some existing
        /\ user req = Some u /\ forbidden u existing = false
        /\ body req = Some b /\ apply_body req b existing = inr d
        /\ updatePost req db
           = (mkRes 200 (PostBody (Some d)), <[params_id req := d]> db)).
Proof.
  destruct (isValidObjectId (params_id req)) eqn:Hvalid;
    [|left; rewrite updatePost_invalid; [auto|done]].
  destruct (db !! params_id req) as [existing|] eqn:Hfound;
    [|left; rewrite updatePost_absent; cbn; auto].
  destruct (user req) as [u|] eqn:Huser;
    [|left; rewrite (updatePost_unauthenticated req db Hvalid existing);
      cbn; auto].
  destruct (forbidden u existing) eqn:Hforb;
    [left; rewrite (updatePost_forbidden req db Hvalid existing Hfound u);
     cbn; auto|].
  destruct (body req) as [b|] eqn:Hbody;
    [|left; rewrite (updatePost_no_body req db Hvalid existing Hfound u);
      cbn; auto].
  destruct (apply_body req b existing) as [res|d] eqn:Happ.
  { left.
    rewrite (updatePost_bad_json req db Hvalid existing Hfound u Huser Hforb
               b Hbody res Happ).
    cbn [fst snd]. rewrite (apply_body_inl req b existing res Happ). auto. }
  destruct (storeAccepts db (params_id req) d) eqn:Hacc.
  - right. exists existing, u, b, d. repeat split; try done.
    by apply (updatePost_saved req db Hvalid existing Hfound u Huser Hforb b).
  - left.
    rewrite (updatePost_rejected req db Hvalid existing Hfound u Huser
               Hforb b Hbody d Happ Hacc).
    cbn; auto.
Qed.

(** Every run of [deletePost]: nothing removed and a refusal, or the
    addressed document removed. *)
Lemma deletePost_cases (req : AuthRequest) (db : Store) :
  ((deletePost req db).2 = db /\ status (deletePost req db).1 <> 200)
  \/ (exists existing u,
        isValidObjectId (params_id req) = true
        /\ db !! params_id req = Some existing
        /\ user req = Some u /\ forbidden u existing = false
        /\ deletePost req db
           = (mkRes 200 (MessageBody "Post deleted"),
              delete (params_id req) db)).
Proof.
  destruct (isValidObjectId (params_id req)) eqn:Hvalid;
    [|left; by rewrite deletePost_invalid].
  destruct (db !! params_id req) as [existing|] eqn:Hfound;
    [|left; by rewrite deletePost_absent].
  destruct (user req) as [u|] eqn:Huser;
    [|left; by rewrite (deletePost_unauthenticated req db Hvalid existing)].
  destruct (forbidden u existing) eqn:Hforb;
    [left; by rewrite (deletePost_forbidden req db Hvalid existing Hfound u)|].
  right. exists existing, u. repeat split; try done.
  by apply (deletePost_deleted req db Hvalid existing Hfound u).
Qed.

(** The assignments of an update, run again on their own result, change
    nothing more. *)
Lemma apply_body_again (req : AuthRequest) (b : Body) (existing d : PostDoc) :
  apply_body req b existing = inr d -> apply_body req b d = inr d.
Proof.
  unfold apply_body, assign_if_truthy.
  destruct (truthy (body_title b)), (truthy (body_slug b)),
    (truthy (body_content b)), (truthy (body_category b)),
    (truthy (body_tags b)), (truthy (body_seo b));
    try destruct (parse_if_string (body_tags b));
    try destruct (parse_if_string (body_seo b));
    cbn [fmap option_fmap option_map]; try discriminate;
    destruct (body_published b), (file req) as [f|];
    try destruct (String.eqb (file_path f) "");
    intros Happ; injection Happ as <-; reflexivity.
Qed.

End Outcomes.

(** Closes the two directions of an equivalence between an answer and its
    condition. *)
Ltac settle :=
  intros;
  repeat match goal with Hand : _ /\ _ |- _ => destruct Hand end;
  try discriminate; try done; try congruence; try (split; congruence).

Section Reads.
Context `{Platform} `{Timestamps}.

(** X1. [getPostById] reads only: the collection is as it was.  It
    answers 400 exactly for an id that is not well-formed, 404 exactly for
    a well-formed id that no post has, and 200 with the stored document
    exactly for a well-formed id that has one. *)
Theorem X1_getPostById_answers (req : AuthRequest) (db : Store) :
  (getPostById req db).2 = db
  /\ (status (getPostById req db).1 = 400
      <-> isValidObjectId (params_id req) = false)
  /\ (status (getPostById req db).1 = 404
      <-> isValidObjectId (params_id req) = true
          /\ db !! params_id req = None)
  /\ (forall d,
        (getPostById req db).1 = mkRes 200 (PostBody (Some d))
        <-> isValidObjectId (params_id req) = true
            /\ db !! params_id req = Some d).
Proof.
  unfold getPostById, try_catch, bind, ret, Post_findById. cbv zeta.
  destruct (isValidObjectId (params_id req)); cbn [negb];
    [destruct (db !! params_id req) as [d0|]|]; cbn [fst snd status].
  all: (split; [done|]; split; [split; settle|]; split; [split; settle|];
        intros d; split; settle).
Qed.

(** X2. [deletePost] answers 200 exactly when the id is well-formed, the
    post exists and the caller is an admin or its author; then that post
    is removed, otherwise nothing is; no other post is ever touched. *)
Theorem X2_deletePost_answers (req : AuthRequest) (db : Store) :
  (status (deletePost req db).1 = 200
   <-> isValidObjectId (params_id req) = true
       /\ exists existing u,
           db !! params_id req = Some existing /\ user req = Some u
           /\ (user_role u = "admin" \/ user_id u = post_author existing))
  /\ (status (deletePost req db).1 = 200 ->
      (deletePost req db).2 = delete (params_id req) db)
  /\ (status (deletePost req db).1 <> 200 -> (deletePost req db).2 = db)
  /\ (forall j, j <> params_id req ->
                (deletePost req db).2 !! j = db !! j).
Proof.
  destruct (deletePost_cases req db)
    as [[Hsame Hnot]|(existing & u & Hvalid & Hfound & Huser & Hforb & Hrun)].
  - split; [split; [done|]|by rewrite Hsame].
    intros (Hvalid & existing & u & Hfound & Huser & Hauth).
    exfalso. apply Hnot.
    by rewrite (deletePost_deleted req db Hvalid existing Hfound u Huser
                  (forbidden_false u existing Hauth)).
  - rewrite Hrun. cbn [fst snd status].
    split; [split; [intros _|done]|].
    + split; [done|]. exists existing, u.
      repeat split; try done. by apply forbidden_false_inv.
    + repeat split; try done.
      intros j Hj. by rewrite lookup_delete_ne.
Qed.

(** X3. [updatePost] answers 200, 400, 401, 403 or 404.  It never adds or
    removes a document, never touches a post other than the addressed one,
    and writes nothing unless it answers 200. *)
Theorem X3_updatePost_frame (req : AuthRequest) (db : Store) :
  (status (updatePost req db).1 = 200
   \/ status (updatePost req db).1 = 400
   \/ status (updatePost req db).1 = 401
   \/ status (updatePost req db).1 = 403
   \/ status (updatePost req db).1 = 404)
  /\ dom (updatePost req db).2 = dom db
  /\ (forall j, j <> params_id req ->
                (updatePost req db).2 !! j = db !! j)
  /\ (status (updatePost req db).1 <> 200 -> (updatePost req db).2 = db).
Proof.
  destruct (updatePost_cases req db)
    as [[Hsame Hst]|(existing & u & b & d & _ & Hfound & _ & _ & _ & _ & Hrun)].
  - rewrite Hsame. repeat split; try done. by right.
  - rewrite Hrun. cbn [fst snd status]. repeat split; try done.
    + by left.
    + apply dom_insert_lookup_L. by exists existing.
    + intros j Hj. by rewrite lookup_insert_ne.
Qed.

(** X4. [addPost] answers 201 or 400.  It never changes or removes a
    stored post; on 201 the collection holds exactly one post more, on 400
    it is as it was. *)
Theorem X4_addPost_frame (req : AuthRequest) (db : Store) :
  (status (addPost req db).1 = 201 \/ status (addPost req db).1 = 400)
  /\ db ⊆ (addPost req db).2
  /\ (status (addPost req db).1 = 201 ->
      size (addPost req db).2 = S (size db))
  /\ (status (addPost req db).1 = 400 -> (addPost req db).2 = db).
Proof.
  destruct (addPost_outcome req db)
    as [[H400 Hsame]|(b & slug & tags & seo & _ & _ & _ & _ & _ & Hfresh & Hrun)].
  - rewrite Hsame, H400. repeat split; try done. by right.
  - rewrite Hrun. cbn [fst snd status]. repeat split; try done.
    + by left.
    + by apply insert_subseteq.
    + intros _. by apply map_size_insert_None.
Qed.

(** X5. On a successful create the stored post has the body's [title],
    [content] and [category] as they came, each of them truthy; its slug
    is a string; its tags are the empty array when [tags] is omitted or
    falsy, the parsed value when [tags] is a non-empty string, and [tags]
    itself otherwise; its [seo] is the parsed string or the value itself;
    its image is the uploaded path, if any. *)
Theorem X5_created_fields (req : AuthRequest) (db : Store) :
  status (addPost req db).1 = 201 ->
  exists b d,
    body req = Some b
    /\ (addPost req db).2 !! newObjectId db = Some d
    /\ (post_title d = body_title b /\ truthy (post_title d) = true)
    /\ (post_content d = body_content b /\ truthy (post_content d) = true)
    /\ (post_category d = body_category b /\ truthy (post_category d) = true)
    /\ (exists s, post_slug d = VStr s)
    /\ (truthy (body_tags b) = false -> post_tags d = VArr [])
    /\ (forall s, body_tags b = VStr s -> s <> "" ->
                  JSON_parse s = Some (post_tags d))
    /\ (truthy (body_tags b) = true -> as_string (body_tags b) = None ->
        post_tags d = body_tags b)
    /\ (forall s, body_seo b = VStr s -> JSON_parse s = Some (post_seo d))
    /\ (as_string (body_seo b) = None -> post_seo d = body_seo b)
    /\ post_featuredImage d = file_path <$> file req.
Proof.
  intros Hst.
  destruct (addPost_201 req db Hst)
    as (b & slug & tags & seo & Hbody & Hfull & _ & Htags & Hseo & _ & Hrun).
  exists b, (newPost req b slug tags seo). rewrite Hrun.
  cbn [fst snd newPost post_title post_content post_category post_slug
         post_tags post_seo post_featuredImage].
  rewrite lookup_insert_eq.
  unfold lacks_required in Hfull.
  apply orb_false_iff in Hfull as [Hfull _].
  apply orb_false_iff in Hfull as [Hfull Hcat].
  apply orb_false_iff in Hfull as [Htitle Hcontent].
  apply negb_false_iff in Htitle, Hcontent, Hcat.
  unfold parsedTags in Htags. unfold parsedSeo, parse_if_string in Hseo.
  repeat split; try done.
  - by exists slug.
  - intros Hf. rewrite Hf in Htags. by injection Htags as <-.
  - intros s Hs Hne.
    by rewrite Hs, (truthy_text s Hne), parse_if_string_text in Htags.
  - intros Ht Hns. rewrite Ht in Htags. unfold parse_if_string in Htags.
    rewrite Hns in Htags. by injection Htags as <-.
  - intros s Hs. by rewrite Hs in Hseo.
  - intros Hns. rewrite Hns in Hseo. by injection Hseo as <-.
Qed.

(** *** One request after another *)

Lemma addPost_keeps (req : AuthRequest) (db : Store) (j : string) (d : PostDoc) :
  db !! j = Some d -> (addPost req db).2 !! j = Some d.
Proof.
  intros Hj.
  destruct (addPost_outcome req db)
    as [[_ Hsame]|(b & slug & tags & seo & _ & _ & _ & _ & _ & Hfresh & Hrun)].
  - by rewrite Hsame.
  - rewrite Hrun. cbn [snd]. rewrite lookup_insert_ne; [done|].
    intros <-. congruence.
Qed.

Lemma addPost_lookup (req : AuthRequest) (db : Store) (j : string) (d : PostDoc) :
  (addPost req db).2 !! j = Some d ->
  db !! j = Some d
  \/ (exists b slug tags seo,
        body req = Some b /\ lacks_required b = false
        /\ d = newPost req b slug tags seo).
Proof.
  destruct (addPost_outcome req db)
    as [[_ Hsame]|(b & slug & tags & seo & Hb & Hfull & _ & _ & _ & _ & Hrun)].
  - rewrite Hsame. by left.
  - rewrite Hrun. cbn [snd]. intros Hj.
    destruct (decide (newObjectId db = j)) as [<-|Hne].
    + rewrite lookup_insert_eq in Hj. injection Hj as <-.
      right. by exists b, slug, tags, seo.
    + rewrite lookup_insert_ne in Hj; [by left|done].
Qed.

Lemma apply_body_required (req : AuthRequest) (b : Body) (existing d : PostDoc) :
  apply_body req b existing = inr d ->
  required_present existing = true -> required_present d = true.
Proof.
  intros Happ.
  destruct (apply_body_inr req b existing d Happ)
    as (Ht & _ & Hc & Hcat & _).
  unfold required_present. rewrite Ht, Hc, Hcat.
  destruct (truthy (body_title b)) eqn:Et, (truthy (body_content b)) eqn:Ec,
    (truthy (body_category b)) eqn:Ecat;
    rewrite ?Et, ?Ec, ?Ecat; intros Hreq;
    repeat (apply andb_prop in Hreq as [Hreq ?]);
    repeat (apply andb_true_intro; split); done.
Qed.

Lemma updatePost_keeps (req : AuthRequest) (db : Store) (j : string)
    (d : PostDoc) :
  db !! j = Some d ->
  exists d', (updatePost req db).2 !! j = Some d'
             /\ post_author d' = post_author d
             /\ (required_present d = true -> required_present d' = true).
Proof.
  intros Hj.
  destruct (updatePost_cases req db)
    as [[Hsame _]|(existing & u & b & d' & _ & Hfound & _ & _ & _ & Happ & Hrun)].
  - rewrite Hsame. by exists d.
  - rewrite Hrun. cbn [snd].
    destruct (decide (params_id req = j)) as [<-|Hne].
    + rewrite lookup_insert_eq. exists d'.
      rewrite Hfound in Hj. injection Hj as <-.
      destruct (apply_body_inr req b existing d' Happ)
        as (_ & _ & _ & _ & _ & _ & _ & _ & Hau).
      repeat split; try done. by apply (apply_body_required req b).
    + rewrite lookup_insert_ne; [|done]. by exists d.
Qed.

Lemma updatePost_lookup (req : AuthRequest) (db : Store) (j : string)
    (d' : PostDoc) :
  (updatePost req db).2 !! j = Some d' ->
  exists d, db !! j = Some d
            /\ post_author d' = post_author d
            /\ (required_present d = true -> required_present d' = true).
Proof.
  intros Hj. destruct (db !! j) as [d|] eqn:Hold.
  - destruct (updatePost_keeps req db j d Hold) as (d'' & Hd'' & Hrest).
    rewrite Hj in Hd''. injection Hd'' as <-. by exists d.
  - exfalso.
    destruct (updatePost_cases req db)
      as [[Hsame _]|(existing & u & b & d & _ & Hfound & _ & _ & _ & _ & Hrun)].
    + rewrite Hsame in Hj. congruence.
    + rewrite Hrun in Hj. cbn [snd] in Hj.
      destruct (decide (params_id req = j)) as [<-|Hne]; [congruence|].
      rewrite lookup_insert_ne in Hj; congruence.
Qed.

Lemma deletePost_lookup (req : AuthRequest) (db : Store) (j : string)
    (d : PostDoc) :
  (deletePost req db).2 !! j = Some d -> db !! j = Some d.
Proof.
  destruct (deletePost_cases req db)
    as [[Hsame _]|(existing & u & _ & _ & _ & _ & Hrun)].
  - by rewrite Hsame.
  - rewrite Hrun. cbn [snd]. intros Hj.
    by apply lookup_delete_Some in Hj as [_ Hj].
Qed.

Lemma getPostById_reads (req : AuthRequest) (db : Store) :
  (getPostById req db).2 = db.
Proof.
  unfold getPostById, try_catch, bind, ret, Post_findById. cbv zeta.
  destruct (isValidObjectId (params_id req)); cbn [negb]; [|done].
  by destruct (db !! params_id req).
Qed.

(** What the router leaves in the collection, route by route. *)
Lemma after_request_cases (i : Incoming) (db : Store) :
  after_request i db = db
  \/ (in_method i = POST /\ after_request i db = (addPost (in_request i) db).2)
  \/ (exists id,
        in_method i = PUT /\ in_path i = [id]
        /\ after_request i db
           = (updatePost (with_params id (in_request i)) db).2)
  \/ (exists id,
        in_method i = DELETE /\ in_path i = [id]
        /\ after_request i db
           = (deletePost (with_params id (in_request i)) db).2).
Proof.
  destruct i as [m path req]. unfold after_request, postRoutes.
  cbn [in_method in_path in_request].
  destruct m, path as [|id [|? ?]]; try (by left).
  - left. pose proof (getPostById_reads (with_params id req) db) as Hsame.
    by destruct (getPostById (with_params id req) db).
  - right. left. split; [done|]. by destruct (addPost req db).
  - right. right. left. exists id. repeat split.
    by destruct (updatePost (with_params id req) db).
  - right. right. right. exists id. repeat split.
    by destruct (deletePost (with_params id req) db).
Qed.

Lemma serve_cons (i : Incoming) (rs : list Incoming) (db : Store) :
  serve (i :: rs) db = serve rs (after_request i db).
Proof. reflexivity. Qed.

(** X6. While no DELETE is among the requests, no post is lost and no
    post changes its author: a post stored before a sequence of requests
    is stored after it, under the same id and with the same author. *)
Theorem X6_without_delete_posts_stay (requests : list Incoming) (db : Store) :
  Forall (fun i => in_method i <> DELETE) requests ->
  forall j d, db !! j = Some d ->
              exists d', serve requests db !! j = Some d'
                         /\ post_author d' = post_author d.
Proof.
  intros Hno. revert db.
  induction Hno as [|i rs Hi _ IH]; intros db j d Hj.
  - by exists d.
  - rewrite serve_cons.
    assert (exists d1, after_request i db !! j = Some d1
                       /\ post_author d1 = post_author d) as (d1 & Hd1 & Ha1).
    { destruct (after_request_cases i db)
        as [Hsame|[[_ Hadd]|[(id & _ & _ & Hupd)|(id & Hdel & _)]]].
      - rewrite Hsame. by exists d.
      - rewrite Hadd. exists d. split; [by apply addPost_keeps|done].
      - rewrite Hupd.
        destruct (updatePost_keeps (with_params id (in_request i)) db j d Hj)
          as (d1 & Hd1 & Ha1 & _).
        by exists d1.
      - done. }
    destruct (IH (after_request i db) j d1 Hd1) as (d' & Hd' & Ha').
    exists d'. split; [done|congruence].
Qed.

(** X7. Repeating a request writes nothing more: after an update, the
    same update leaves the collection as the first left it, and so does a
    repeated delete. *)
Theorem X7_repeated_request_writes_nothing (req : AuthRequest) (db : Store) :
  (updatePost req (updatePost req db).2).2 = (updatePost req db).2
  /\ (deletePost req (deletePost req db).2).2 = (deletePost req db).2.
Proof.
  split.
  - destruct (updatePost_cases req db)
      as [[Hsame _]|(existing & u & b & d & _ & _ & _ & _ & Hb & Happ & Hrun)].
    + by rewrite !Hsame.
    + rewrite Hrun. cbn [snd].
      destruct (updatePost_cases req (<[params_id req := d]> db))
        as [[Hsame _]|(e' & u' & b' & d' & _ & He' & _ & _ & Hb' & Happ' & Hrun')].
      * done.
      * rewrite Hrun'. cbn [snd].
        rewrite lookup_insert_eq in He'. injection He' as <-.
        rewrite Hb in Hb'. injection Hb' as <-.
        rewrite (apply_body_again req b existing d Happ) in Happ'.
        injection Happ' as <-. apply insert_insert_eq.
  - destruct (deletePost_cases req db)
      as [[Hsame _]|(existing & u & Hvalid & _ & _ & _ & Hrun)].
    + by rewrite !Hsame.
    + rewrite Hrun. cbn [snd].
      rewrite (deletePost_absent req (delete (params_id req) db) Hvalid);
        [done|apply lookup_delete_eq].
Qed.

(** X8. A post just created can be read back: when the id the collection
    gave it is well-formed, [getPostById] for that id answers 200 with the
    document the create answered with. *)
Theorem X8_read_after_create (req req' : AuthRequest) (db : Store) :
  status (addPost req db).1 = 201 ->
  isValidObjectId (newObjectId db) = true ->
  params_id req' = newObjectId db ->
  getPostById req' (addPost req db).2
  = (mkRes 200 (payload (addPost req db).1), (addPost req db).2).
Proof.
  intros Hst Hvalid Hid.
  destruct (addPost_201 req db Hst)
    as (b & slug & tags & seo & _ & _ & _ & _ & _ & _ & Hrun).
  rewrite Hrun. cbn [fst snd payload].
  unfold getPostById, try_catch, bind, ret, Post_findById. cbv zeta.
  rewrite Hid, Hvalid. cbn [negb]. by rewrite lookup_insert_eq.
Qed.

(** X9. A caller with an id who creates a post and then deletes it leaves
    the collection exactly as it was before the create. *)
Theorem X9_delete_after_create (req req' : AuthRequest) (db : Store)
    (u : User) :
  status (addPost req db).1 = 201 ->
  isValidObjectId (newObjectId db) = true ->
  user req = Some u -> user_id u <> "" ->
  params_id req' = newObjectId db -> user req' = Some u ->
  deletePost req' (addPost req db).2
  = (mkRes 200 (MessageBody "Post deleted"), db).
Proof.
  intros Hst Hvalid Hu Hne Hid Hu'.
  destruct (addPost_201 req db Hst)
    as (b & slug & tags & seo & _ & _ & _ & _ & _ & Hfresh & Hrun).
  rewrite Hrun. cbn [snd]. rewrite <- Hid in Hvalid.
  rewrite (deletePost_deleted req' _ Hvalid (newPost req b slug tags seo)
             ltac:(rewrite Hid; apply lookup_insert_eq) u Hu').
  - rewrite Hid, delete_insert_id; done.
  - apply forbidden_owner. cbn [newPost post_author]. rewrite Hu.
    cbn [author_for]. apply String.eqb_neq in Hne. by rewrite Hne.
Qed.

(** X10. After a successful update, [getPostById] for the same id answers
    200 with the document the update answered with. *)
Theorem X10_read_after_update (req req' : AuthRequest) (db : Store) :
  status (updatePost req db).1 = 200 ->
  params_id req' = params_id req ->
  getPostById req' (updatePost req db).2
  = (mkRes 200 (payload (updatePost req db).1), (updatePost req db).2).
Proof.
  intros Hst Hid.
  destruct (updatePost_cases req db)
    as [[_ Hno]|(existing & u & b & d & Hvalid & _ & _ & _ & _ & _ & Hrun)].
  - rewrite Hst in Hno. by destruct Hno as [?|[?|[?|?]]].
  - rewrite Hrun. cbn [fst snd payload].
    unfold getPostById, try_catch, bind, ret, Post_findById. cbv zeta.
    rewrite Hid, Hvalid. cbn [negb]. by rewrite lookup_insert_eq.
Qed.

(** X11. After a successful delete, a read and an update of the same id
    both answer 404, whoever asks. *)
Theorem X11_gone_after_delete (req req' : AuthRequest) (db : Store) :
  status (deletePost req db).1 = 200 ->
  params_id req' = params_id req ->
  status (getPostById req' (deletePost req db).2).1 = 404
  /\ status (updatePost req' (deletePost req db).2).1 = 404
  /\ (updatePost req' (deletePost req db).2).2 = (deletePost req db).2.
Proof.
  intros Hst Hid.
  destruct (deletePost_cases req db)
    as [[_ Hno]|(existing & u & Hvalid & _ & _ & _ & Hrun)]; [done|].
  rewrite Hrun. cbn [snd]. rewrite <- Hid in Hvalid.
  assert (delete (params_id req) db !! params_id req' = None) as Hgone
    by (rewrite Hid; apply lookup_delete_eq).
  rewrite (updatePost_absent req' _ Hvalid Hgone).
  split; [|done].
  unfold getPostById, try_catch, bind, ret, Post_findById. cbv zeta.
  rewrite Hvalid. cbn [negb]. by rewrite Hgone.
Qed.

Lemma newPost_required (req : AuthRequest) (b : Body) (slug : string)
    (tags seo : JsVal) :
  lacks_required b = false ->
  required_present (newPost req b slug tags seo) = true.
Proof.
  unfold lacks_required, required_present. intros Hfull.
  apply orb_false_iff in Hfull as [Hfull _].
  apply orb_false_iff in Hfull as [Hfull Hcat].
  apply orb_false_iff in Hfull as [Htitle Hcontent].
  apply negb_false_iff in Htitle, Hcontent, Hcat.
  cbn [newPost post_title post_content post_category].
  by rewrite Htitle, Hcontent, Hcat.
Qed.

(** X12. The router keeps every stored post with a truthy [title],
    [content] and [category]: when all posts of the collection have them,
    all posts have them after any sequence of requests. *)
Theorem X12_required_fields_stay (requests : list Incoming) (db : Store) :
  (forall j d, db !! j = Some d -> required_present d = true) ->
  forall j d, serve requests db !! j = Some d -> required_present d = true.
Proof.
  revert db. induction requests as [|i rs IH]; intros db Hall; [done|].
  rewrite serve_cons. apply IH. intros j d Hj.
  destruct (after_request_cases i db)
    as [Hsame|[[_ Hadd]|[(id & _ & _ & Hupd)|(id & _ & _ & Hdel)]]].
  - rewrite Hsame in Hj. by apply (Hall j).
  - rewrite Hadd in Hj.
    destruct (addPost_lookup _ _ _ _ Hj)
      as [Hold|(b & slug & tags & seo & _ & Hfull & ->)].
    + by apply (Hall j).
    + by apply newPost_required.
  - rewrite Hupd in Hj.
    destruct (updatePost_lookup _ _ _ _ Hj) as (d0 & Hold & _ & Hkeep).
    apply Hkeep. by apply (Hall j).
  - rewrite Hdel in Hj. apply (Hall j). by apply (deletePost_lookup _ _ _ _ Hj).
Qed.

(** One request without caller identity. *)
Lemma after_anonymous_request (i : Incoming) (db : Store) :
  user (in_request i) = None ->
  db ⊆ after_request i db
  /\ (forall j d, after_request i db !! j = Some d ->
                  db !! j = Some d \/ post_author d = fallbackAuthor).
Proof.
  intros Hanon.
  destruct (after_request_cases i db)
    as [Hsame|[[_ Hadd]|[(id & _ & _ & Hupd)|(id & _ & _ & Hdel)]]].
  - rewrite Hsame. split; [done|]. intros j d Hj. by left.
  - rewrite Hadd. split.
    + apply map_subseteq_spec. intros j d Hj. by apply addPost_keeps.
    + intros j d Hj.
      destruct (addPost_lookup _ _ _ _ Hj)
        as [Hold|(b & slug & tags & seo & _ & _ & ->)]; [by left|right].
      cbn [newPost post_author]. by rewrite Hanon.
  - rewrite Hupd.
    destruct (updatePost_cases (with_params id (in_request i)) db)
      as [[Hsame _]|(e & u & b & d & _ & _ & Hu & _)].
    + rewrite Hsame. split; [done|]. intros j d Hj. by left.
    + cbn [with_params user] in Hu. congruence.
  - rewrite Hdel.
    destruct (deletePost_cases (with_params id (in_request i)) db)
      as [[Hsame _]|(e & u & _ & _ & Hu & _)].
    + rewrite Hsame. split; [done|]. intros j d Hj. by left.
    + cbn [with_params user] in Hu. congruence.
Qed.

(** X13. Requests that reach the router without a caller identity never
    change or remove a stored post, and every post they add has the
    fallback author [68ae1145a564344c2e6e03fb]. *)
Theorem X13_anonymous_requests (requests : list Incoming) (db : Store) :
  Forall (fun i => user (in_request i) = None) requests ->
  db ⊆ serve requests db
  /\ (forall j d, serve requests db !! j = Some d ->
                  db !! j = Some d
                  \/ post_author d = "68ae1145a564344c2e6e03fb").
Proof.
  intros Hanon. revert db.
  induction Hanon as [|i rs Hi _ IH]; intros db.
  - split; [done|]. intros j d Hj. by left.
  - rewrite serve_cons.
    destruct (after_anonymous_request i db Hi) as [Hsub Hnew].
    destruct (IH (after_request i db)) as [Hsub' Hnew'].
    split; [by etrans|].
    intros j d Hj. destruct (Hnew' j d Hj) as [Hmid|Hfb]; [|by right].
    by apply Hnew.
Qed.

(** X14. Reading changes nothing: after any sequence of GET requests, and
    of requests whose verb the router does not register, the collection is
    as it was. *)
Theorem X14_reads_change_nothing (requests : list Incoming) (db : Store) :
  Forall (fun i => in_method i = GET \/ in_method i = OtherMethod) requests ->
  serve requests db = db.
Proof.
  intros Hread. revert db.
  induction Hread as [|i rs Hi _ IH]; intros db; [done|].
  assert (after_request i db = db) as Hstep.
  { destruct (after_request_cases i db)
      as [Hsame|[[Hm _]|[(id & Hm & _)|(id & Hm & _)]]]; [done|..];
      destruct Hi; congruence. }
  rewrite serve_cons, Hstep. apply IH.
Qed.

(** *** The listing *)

Lemma listing_elem (db : Store) (j : string) (d : PostDoc) :
  (j, d) ∈ merge_sort newer (map_to_list db) <-> db !! j = Some d.
Proof. by rewrite merge_sort_Permutation, elem_of_map_to_list. Qed.

(** X16. After a successful create the listing holds the new post, every
    post it held before, and one post more than the collection had. *)
Theorem X16_listing_after_create (req req' : AuthRequest) (db : Store) :
  status (addPost req db).1 = 201 ->
  exists d posts,
    payload (addPost req db).1 = PostBody (Some d)
    /\ (getAllPosts req' (addPost req db).2).1 = mkList 200 (PostsBody posts)
    /\ (newObjectId db, d) ∈ posts
    /\ (forall j e, db !! j = Some e -> (j, e) ∈ posts)
    /\ length posts = S (size db).
Proof.
  intros Hst.
  destruct (addPost_201 req db Hst)
    as (b & slug & tags & seo & _ & _ & _ & _ & _ & Hfresh & Hrun).
  rewrite Hrun. cbn [fst snd payload].
  exists (newPost req b slug tags seo),
    (merge_sort newer
       (map_to_list (<[newObjectId db := newPost req b slug tags seo]> db))).
  split; [done|]. split; [done|]. split; [|split].
  - apply listing_elem, lookup_insert_eq.
  - intros j e Hj. apply listing_elem. rewrite lookup_insert_ne; [done|].
    intros <-. congruence.
  - rewrite merge_sort_Permutation, length_map_to_list.
    by apply map_size_insert_None.
Qed.

(** One request by a caller who is neither an admin nor the author. *)
Lemma after_foreign_request (i : Incoming) (db : Store) (j : string)
    (d : PostDoc) :
  db !! j = Some d ->
  (forall u, user (in_request i) = Some u ->
             user_role u <> "admin" /\ user_id u <> post_author d) ->
  after_request i db !! j = Some d.
Proof.
  intros Hj Hforeign.
  destruct (after_request_cases i db)
    as [Hsame|[[_ Hadd]|[(id & _ & _ & Hupd)|(id & _ & _ & Hdel)]]].
  - by rewrite Hsame.
  - rewrite Hadd. by apply addPost_keeps.
  - rewrite Hupd.
    destruct (updatePost_cases (with_params id (in_request i)) db)
      as [[Hsame _]|(e & u & b & d' & _ & He & Hu & Hforb & _ & _ & Hrun)].
    + by rewrite Hsame.
    + rewrite Hrun. cbn [snd]. cbn [with_params params_id user] in *.
      destruct (decide (id = j)) as [->|Hne];
        [exfalso|by rewrite lookup_insert_ne].
      rewrite Hj in He. injection He as <-.
      destruct (Hforeign u Hu) as [Hrole Hid].
      by destruct (forbidden_false_inv u d Hforb).
  - rewrite Hdel.
    destruct (deletePost_cases (with_params id (in_request i)) db)
      as [[Hsame _]|(e & u & _ & He & Hu & Hforb & Hrun)].
    + by rewrite Hsame.
    + rewrite Hrun. cbn [snd]. cbn [with_params params_id user] in *.
      destruct (decide (id = j)) as [->|Hne];
        [exfalso|by rewrite lookup_delete_ne].
      rewrite Hj in He. injection He as <-.
      destruct (Hforeign u Hu) as [Hrole Hid].
      by destruct (forbidden_false_inv u d Hforb).
Qed.

(** X17. A post is safe from everyone else: through any sequence of
    requests none of whose callers is an admin or the post's author, the
    post stays stored under its id with every field as it was. *)
Theorem X17_post_safe_from_others (requests : list Incoming) (db : Store)
    (j : string) (d : PostDoc) :
  db !! j = Some d ->
  Forall (fun i => forall u, user (in_request i) = Some u ->
                             user_role u <> "admin"
                             /\ user_id u <> post_author d) requests ->
  serve requests db !! j = Some d.
Proof.
  intros Hj Hforeign. revert db Hj.
  induction Hforeign as [|i rs Hi _ IH]; intros db Hj; [done|].
  rewrite serve_cons. apply IH. by apply after_foreign_request.
Qed.

End Reads.

(** ** The properties on the sample data *)

Import Concrete Samples.

Lemma C1_forbidden_caller_changes_nothing_witness :
  (isValidObjectId (params_id bob_retitles) = true
   /\ db0 !! params_id bob_retitles = Some post0
   /\ user bob_retitles = Some bob
   /\ user_role bob <> "admin"
   /\ user_id bob <> post_author post0)
  /\ (status (updatePost bob_retitles db0).1 = 403
      /\ (updatePost bob_retitles db0).2 = db0
      /\ (updatePost bob_retitles db0).2 !! params_id bob_retitles = Some post0)
  /\ (status (deletePost bob_retitles db0).1 = 403
      /\ (deletePost bob_retitles db0).2 = db0
      /\ (deletePost bob_retitles db0).2 !! params_id bob_retitles = Some post0).
Proof.
  assert (isValidObjectId (params_id bob_retitles) = true) as Hvalid
    by (vm_compute; reflexivity).
  assert (db0 !! params_id bob_retitles = Some post0) as Hfound
    by (vm_compute; reflexivity).
  assert (user_role bob <> "admin") as Hrole by (vm_compute; discriminate).
  assert (user_id bob <> post_author post0) as Hid
    by (vm_compute; discriminate).
  split; [by repeat split|].
  exact (C1_forbidden_caller_changes_nothing bob_retitles db0 post0 bob
           Hvalid Hfound eq_refl Hrole Hid).
Defined.

(** C2 as stated fails: an update without caller identity for a well-formed
    id that no post has answers 404, not 401. *)
Lemma C2_counterexample :
  user anonymous_probe = None
  /\ isValidObjectId (params_id anonymous_probe) = true
  /\ status (updatePost anonymous_probe db0).1 = 404
  /\ status (updatePost anonymous_probe db0).1 <> 401.
Proof. vm_compute. repeat split; discriminate. Qed.

Lemma C2_update_unauthenticated_or_absent_witness :
  isValidObjectId (params_id anonymous_on_post) = true
  /\ updatePost anonymous_on_post db0
     = (mkRes 401 (ErrorBody "Unauthorized" None), db0).
Proof.
  assert (isValidObjectId (params_id anonymous_on_post) = true) as Hvalid
    by (vm_compute; reflexivity).
  split; [exact Hvalid|].
  apply (proj1 (C2_update_unauthenticated_or_absent anonymous_on_post db0
                  Hvalid) post0).
  - vm_compute; reflexivity.
  - reflexivity.
Defined.

Lemma C3_create_requires_fields_witness :
  body_title (with_title VUndefined hello) = VUndefined
  /\ status (addPost create_untitled db0).1 = 400
  /\ (addPost create_untitled db0).2 = db0.
Proof.
  split; [reflexivity|].
  apply (C3_create_requires_fields create_untitled db0).
  intros b Hb. injection Hb as <-. left. reflexivity.
Defined.

(** C4 as stated fails: the empty string is not JSON, yet a create whose
    [tags] is the empty string answers 201 and inserts a post, and an
    update by the author whose [seo] is the empty string answers 200; and
    an update without caller identity answers 401 before it reads [tags]. *)
Lemma C4_counterexample :
  JSON_parse "" = None
  /\ (body_tags <$> body create_empty_tags = Some (VStr "")
      /\ status (addPost create_empty_tags db0).1 = 201
      /\ (addPost create_empty_tags db0).2 <> db0)
  /\ (body_seo <$> body alice_empty_seo = Some (VStr "")
      /\ status (updatePost alice_empty_seo db0).1 = 200)
  /\ (JSON_parse "[oops" = None
      /\ body_tags <$> body anonymous_broken_tags = Some (VStr "[oops")
      /\ status (updatePost anonymous_broken_tags db0).1 = 401).
Proof.
  repeat split; try (vm_compute; reflexivity).
  intros Hsame.
  apply (f_equal (fun m : Store => post_title <$> m !! oid1)) in Hsame.
  vm_compute in Hsame. discriminate.
Qed.

Lemma C4_malformed_json_writes_nothing_witness :
  (body create_broken_tags = Some (with_tags (VStr "[oops") hello)
   /\ JSON_parse "[oops" = None)
  /\ (status (addPost create_broken_tags db0).1 = 400
      /\ (addPost create_broken_tags db0).2 = db0)
  /\ (status (updatePost alice_broken_tags db0).1 = 400
      /\ (updatePost alice_broken_tags db0).2 = db0
      /\ (updatePost alice_broken_tags db0).2 !! params_id alice_broken_tags
         = Some post0).
Proof.
  assert (JSON_parse "[oops" = None) as Hparse by (vm_compute; reflexivity).
  split; [by split|]. split.
  - apply (proj1 (C4_malformed_json_writes_nothing create_broken_tags db0
                    (with_tags (VStr "[oops") hello) "[oops" eq_refl Hparse)).
    left. split; [reflexivity|discriminate].
  - apply (proj2 (C4_malformed_json_writes_nothing alice_broken_tags db0
                    (with_tags (VStr "[oops")
                               (with_title (VStr "New title") no_fields))
                    "[oops" eq_refl Hparse) post0 alice).
    + vm_compute; reflexivity.
    + vm_compute; reflexivity.
    + reflexivity.
    + right. reflexivity.
    + split; [left; reflexivity|discriminate].
Defined.

(** C5 as stated fails: a [title] present in the body as the empty string
    does not overwrite the stored title although the update answers 200;
    and a [title] present in a body whose [tags] do not parse is not
    written either. *)
Lemma C5_counterexample :
  (body_title <$> body alice_empty_title = Some (VStr "")
   /\ status (updatePost alice_empty_title db0).1 = 200
   /\ post_title <$> (updatePost alice_empty_title db0).2 !! oid0
      = Some (VStr "Old title"))
  /\ (body_title <$> body alice_broken_tags = Some (VStr "New title")
      /\ status (updatePost alice_broken_tags db0).1 = 400
      /\ post_title <$> (updatePost alice_broken_tags db0).2 !! oid0
         = Some (VStr "Old title")).
Proof. repeat split; vm_compute; reflexivity. Qed.

Lemma C5_partial_update_witness :
  status (updatePost alice_retitles db0).1 = 200
  /\ exists d,
      (updatePost alice_retitles db0).2 !! oid0 = Some d
      /\ post_title d = VStr "New title"
      /\ post_content d = VStr "Old content"
      /\ post_published d = false
      /\ post_author d = user_id alice.
Proof.
  assert (status (updatePost alice_retitles db0).1 = 200) as Hok
    by (vm_compute; reflexivity).
  split; [exact Hok|].
  destruct (C5_partial_update alice_retitles db0 post0 alice
              (with_title (VStr "New title") no_fields))
    as (d & Hd & Hauthor & Hkept & Hnew).
  - vm_compute; reflexivity.
  - vm_compute; reflexivity.
  - reflexivity.
  - right. reflexivity.
  - reflexivity.
  - exists d. split; [exact Hd|].
    destruct Hkept as (_ & _ & Hcontent & _ & _ & _ & Hpub & _).
    destruct (Hnew Hok) as (_ & Htitle & _).
    split; [exact (Htitle eq_refl)|].
    split; [exact (Hcontent eq_refl)|].
    split; [exact (Hpub eq_refl)|exact Hauthor].
Defined.

(** C6 as stated fails: a slug supplied as the empty string is replaced
    by the slug of the title, and a slug supplied as an array is stored as
    its elements joined by commas. *)
Lemma C6_counterexample :
  (body_slug <$> body create_empty_slug = Some (VStr "")
   /\ status (addPost create_empty_slug db0).1 = 201
   /\ post_slug <$> (addPost create_empty_slug db0).2 !! newObjectId db0
      = Some (VStr "hello-world"))
  /\ (body_slug <$> body create_array_slug
      = Some (VArr [VStr "a"; VStr "b"])
      /\ status (addPost create_array_slug db0).1 = 201
      /\ post_slug <$> (addPost create_array_slug db0).2 !! newObjectId db0
         = Some (VStr "a,b")).
Proof. repeat split; vm_compute; reflexivity. Qed.

Lemma C6_created_slug_witness :
  status (addPost create_with_slug db0).1 = 201
  /\ (exists d,
        (addPost create_with_slug db0).2 !! newObjectId db0 = Some d
        /\ post_slug d = VStr "my-slug")
  /\ (exists d,
        (addPost create_hello db0).2 !! newObjectId db0 = Some d
        /\ post_slug d = VStr "hello-world").
Proof.
  assert (status (addPost create_with_slug db0).1 = 201) as Hok
    by (vm_compute; reflexivity).
  assert (status (addPost create_hello db0).1 = 201) as Hok'
    by (vm_compute; reflexivity).
  split; [exact Hok|]. split.
  - destruct (C6_created_slug create_with_slug db0 Hok)
      as (b & d & Hb & _ & _ & Hd & Hverbatim & _).
    injection Hb as <-.
    exists d. split; [exact Hd|].
    apply (Hverbatim "my-slug"); [reflexivity|discriminate].
  - destruct (C6_created_slug create_hello db0 Hok')
      as (b & d & Hb & _ & _ & Hd & _ & Hderived & _).
    injection Hb as <-.
    exists d. split; [exact Hd|].
    destruct (Hderived eq_refl) as (g & Hg & Hslug).
    vm_compute in Hg. injection Hg as <-. exact Hslug.
Defined.

Lemma C7_created_author_witness :
  (status (addPost create_hello db0).1 = 201
   /\ exists d,
       (addPost create_hello db0).2 !! newObjectId db0 = Some d
       /\ post_author d = user_id alice)
  /\ (status (addPost create_anonymous db0).1 = 201
      /\ exists d,
          (addPost create_anonymous db0).2 !! newObjectId db0 = Some d
          /\ post_author d = "68ae1145a564344c2e6e03fb")
  /\ (status (addPost create_nameless db0).1 = 201
      /\ exists d,
          (addPost create_nameless db0).2 !! newObjectId db0 = Some d
          /\ post_author d = "68ae1145a564344c2e6e03fb").
Proof.
  assert (status (addPost create_hello db0).1 = 201) as Hok
    by (vm_compute; reflexivity).
  assert (status (addPost create_anonymous db0).1 = 201) as Hok'
    by (vm_compute; reflexivity).
  assert (status (addPost create_nameless db0).1 = 201) as Hok''
    by (vm_compute; reflexivity).
  split; [|split]; (split; [assumption|]).
  - destruct (C7_created_author create_hello db0 Hok)
      as (d & _ & _ & Hd & Hcaller & _).
    exists d. split; [exact Hd|].
    apply (Hcaller alice); [reflexivity|discriminate].
  - destruct (C7_created_author create_anonymous db0 Hok')
      as (d & _ & _ & Hd & _ & Hother).
    exists d. split; [exact Hd|]. apply Hother. left. reflexivity.
  - destruct (C7_created_author create_nameless db0 Hok'')
      as (d & _ & _ & Hd & _ & Hother).
    exists d. split; [exact Hd|]. apply Hother. right.
    exists nameless. split; reflexivity.
Defined.

Lemma C8_published_coercion_witness :
  (status (addPost create_published db0).1 = 201
   /\ exists d,
       (addPost create_published db0).2 !! newObjectId db0 = Some d
       /\ post_published d = true)
  /\ (exists d,
        (updatePost alice_retitles db0).2 !! oid0 = Some d
        /\ post_published d = post_published post0)
  /\ (status (updatePost alice_publishes db0).1 = 200
      /\ exists d,
          (updatePost alice_publishes db0).2 !! oid0 = Some d
          /\ post_published d = true).
Proof.
  assert (status (addPost create_published db0).1 = 201) as Hok
    by (vm_compute; reflexivity).
  assert (status (updatePost alice_publishes db0).1 = 200) as Hok'
    by (vm_compute; reflexivity).
  assert (db0 !! oid0 = Some post0) as Hfound by (vm_compute; reflexivity).
  split; [split; [exact Hok|]|split; [|split; [exact Hok'|]]].
  - destruct (proj1 (C8_published_coercion create_published db0
                       (with_published (VStr "true") hello) eq_refl) Hok)
      as (d & _ & Hd & Hpub).
    exists d. split; [exact Hd|]. apply Hpub. right. reflexivity.
  - destruct (proj2 (C8_published_coercion alice_retitles db0
                       (with_title (VStr "New title") no_fields) eq_refl)
                post0 Hfound)
      as (d & Hd & Hkeep & _).
    exists d. split; [exact Hd|exact (Hkeep eq_refl)].
  - destruct (proj2 (C8_published_coercion alice_publishes db0
                       (with_published (VStr "true") no_fields) eq_refl)
                post0 Hfound)
      as (d & Hd & _ & Hset).
    exists d. split; [exact Hd|].
    apply Hset; [discriminate|exact Hok'|right; reflexivity].
Defined.

Lemma C9_delete_absent_and_twice_witness :
  (isValidObjectId (params_id alice_deletes) = true
   /\ params_id root_deletes = params_id alice_deletes)
  /\ status (deletePost alice_deletes db0).1 = 200
  /\ (deletePost alice_deletes db0).2 = delete oid0 db0
  /\ status (deletePost root_deletes (deletePost alice_deletes db0).2).1 = 404
  /\ (deletePost root_deletes (deletePost alice_deletes db0).2).2
     = (deletePost alice_deletes db0).2.
Proof.
  assert (isValidObjectId (params_id alice_deletes) = true) as Hvalid
    by (vm_compute; reflexivity).
  split; [by split|].
  apply (proj2 (C9_delete_absent_and_twice alice_deletes root_deletes db0
                  Hvalid eq_refl) post0 alice).
  - vm_compute; reflexivity.
  - reflexivity.
  - reflexivity.
Defined.

Lemma C10_lookup_precedes_authentication_witness :
  (isValidObjectId (params_id anonymous_probe) = true
   /\ user anonymous_probe = None
   /\ db0 !! params_id anonymous_probe = None)
  /\ updatePost anonymous_probe db0
     = (mkRes 404 (ErrorBody "Post not found" None), db0)
  /\ deletePost anonymous_probe db0
     = (mkRes 404 (ErrorBody "Post not found" None), db0).
Proof.
  assert (isValidObjectId (params_id anonymous_probe) = true) as Hvalid
    by (vm_compute; reflexivity).
  assert (db0 !! params_id anonymous_probe = None) as Hnone
    by (vm_compute; reflexivity).
  split; [by repeat split|].
  exact (proj1 (C10_lookup_precedes_authentication anonymous_probe db0 Hvalid)
           Hnone).
Defined.

(** ** The further properties on the sample data *)

Import Traffic.

Lemma X5_created_fields_witness :
  status (addPost create_hello db0).1 = 201
  /\ exists d,
      (addPost create_hello db0).2 !! newObjectId db0 = Some d
      /\ post_title d = VStr "Hello World"
      /\ post_tags d = VArr []
      /\ post_seo d = VObj [("title", VStr "x")]
      /\ post_featuredImage d = None.
Proof.
  assert (status (addPost create_hello db0).1 = 201) as Hok
    by (vm_compute; reflexivity).
  split; [exact Hok|].
  destruct (X5_created_fields create_hello db0 Hok)
    as (b & d & Hb & Hd & [Htitle _] & _ & _ & _ & Htags & _ & _ & _ & Hseo
        & Himg).
  injection Hb as <-.
  exists d. split; [exact Hd|]. split; [exact Htitle|].
  split; [exact (Htags eq_refl)|]. split; [exact (Hseo eq_refl)|exact Himg].
Defined.

Lemma X6_without_delete_posts_stay_witness :
  Forall (fun i => in_method i <> DELETE) editing_traffic
  /\ exists d,
      serve editing_traffic db0 !! oid0 = Some d
      /\ post_author d = post_author post0.
Proof.
  assert (Forall (fun i => in_method i <> DELETE) editing_traffic) as Hno
    by (repeat constructor; discriminate).
  split; [exact Hno|].
  apply (X6_without_delete_posts_stay editing_traffic db0 Hno oid0 post0).
  vm_compute; reflexivity.
Defined.

Lemma X8_read_after_create_witness :
  (status (addPost create_hello db0).1 = 201
   /\ isValidObjectId (newObjectId db0) = true
   /\ params_id read_post1 = newObjectId db0)
  /\ getPostById read_post1 (addPost create_hello db0).2
     = (mkRes 200 (payload (addPost create_hello db0).1),
        (addPost create_hello db0).2).
Proof.
  assert (status (addPost create_hello db0).1 = 201) as Hok
    by (vm_compute; reflexivity).
  assert (isValidObjectId (newObjectId db0) = true) as Hvalid
    by (vm_compute; reflexivity).
  assert (params_id read_post1 = newObjectId db0) as Hid
    by (vm_compute; reflexivity).
  split; [by repeat split|].
  exact (X8_read_after_create create_hello read_post1 db0 Hok Hvalid Hid).
Defined.

Lemma X9_delete_after_create_witness :
  status (addPost create_hello db0).1 = 201
  /\ deletePost alice_deletes_new (addPost create_hello db0).2
     = (mkRes 200 (MessageBody "Post deleted"), db0).
Proof.
  assert (status (addPost create_hello db0).1 = 201) as Hok
    by (vm_compute; reflexivity).
  split; [exact Hok|].
  apply (X9_delete_after_create create_hello alice_deletes_new db0 alice Hok).
  - vm_compute; reflexivity.
  - reflexivity.
  - vm_compute; discriminate.
  - vm_compute; reflexivity.
  - reflexivity.
Defined.

Lemma X10_read_after_update_witness :
  status (updatePost alice_retitles db0).1 = 200
  /\ getPostById read_post0 (updatePost alice_retitles db0).2
     = (mkRes 200 (payload (updatePost alice_retitles db0).1),
        (updatePost alice_retitles db0).2).
Proof.
  assert (status (updatePost alice_retitles db0).1 = 200) as Hok
    by (vm_compute; reflexivity).
  split; [exact Hok|].
  exact (X10_read_after_update alice_retitles read_post0 db0 Hok eq_refl).
Defined.

Lemma X11_gone_after_delete_witness :
  status (deletePost alice_deletes db0).1 = 200
  /\ status (getPostById read_post0 (deletePost alice_deletes db0).2).1 = 404
  /\ status (updatePost alice_retitles (deletePost alice_deletes db0).2).1
     = 404
  /\ (updatePost alice_retitles (deletePost alice_deletes db0).2).2
     = (deletePost alice_deletes db0).2.
Proof.
  assert (status (deletePost alice_deletes db0).1 = 200) as Hok
    by (vm_compute; reflexivity).
  split; [exact Hok|].
  destruct (X11_gone_after_delete alice_deletes read_post0 db0 Hok eq_refl)
    as [Hread _].
  destruct (X11_gone_after_delete alice_deletes alice_retitles db0 Hok eq_refl)
    as (_ & Hupd & Hsame).
  by repeat split.
Defined.

Lemma X12_required_fields_stay_witness :
  exists d,
    serve mixed_traffic db0 !! oid1 = Some d /\ required_present d = true.
Proof.
  eexists. split; [vm_compute; reflexivity|].
  apply (X12_required_fields_stay mixed_traffic db0) with (j := oid1).
  - intros j d Hj. unfold db0 in Hj. apply lookup_singleton_Some in Hj as [_ <-]. reflexivity.
  - vm_compute; reflexivity.
Defined.

Lemma X13_anonymous_requests_witness :
  Forall (fun i => user (in_request i) = None) anonymous_traffic
  /\ serve anonymous_traffic db0 !! oid0 = Some post0
  /\ exists d,
      serve anonymous_traffic db0 !! oid1 = Some d
      /\ post_author d = "68ae1145a564344c2e6e03fb".
Proof.
  assert (Forall (fun i => user (in_request i) = None) anonymous_traffic)
    as Hanon by (repeat constructor).
  destruct (X13_anonymous_requests anonymous_traffic db0 Hanon)
    as [Hsub Hnew].
  split; [exact Hanon|]. split.
  - apply (lookup_weaken db0); [vm_compute; reflexivity|exact Hsub].
  - eexists. split; [vm_compute; reflexivity|].
    destruct (Hnew oid1 _ ltac:(vm_compute; reflexivity)) as [Hold|Hfb];
      [vm_compute in Hold; discriminate|exact Hfb].
Defined.

Lemma X14_reads_change_nothing_witness :
  Forall (fun i => in_method i = GET \/ in_method i = OtherMethod)
         reading_traffic
  /\ serve reading_traffic db0 = db0.
Proof.
  assert (Forall (fun i => in_method i = GET \/ in_method i = OtherMethod)
                 reading_traffic) as Hread
    by (repeat constructor; (by left) || (by right)).
  split; [exact Hread|].
  exact (X14_reads_change_nothing reading_traffic db0 Hread).
Defined.

Lemma X16_listing_after_create_witness :
  status (addPost create_hello db0).1 = 201
  /\ exists posts,
      (getAllPosts read_post0 (addPost create_hello db0).2).1
      = mkList 200 (PostsBody posts)
      /\ (oid0, post0) ∈ posts
      /\ length posts = 2.
Proof.
  assert (status (addPost create_hello db0).1 = 201) as Hok
    by (vm_compute; reflexivity).
  split; [exact Hok|].
  destruct (X16_listing_after_create create_hello read_post0 db0 Hok)
    as (d & posts & _ & Hlist & _ & Hold & Hlen).
  exists posts. split; [exact Hlist|]. split.
  - apply Hold. vm_compute; reflexivity.
  - rewrite Hlen. vm_compute; reflexivity.
Defined.

Lemma X17_post_safe_from_others_witness :
  db0 !! oid0 = Some post0
  /\ serve foreign_traffic db0 !! oid0 = Some post0.
Proof.
  assert (db0 !! oid0 = Some post0) as Hfound by (vm_compute; reflexivity).
  split; [exact Hfound|].
  apply (X17_post_safe_from_others foreign_traffic db0 oid0 post0 Hfound).
  repeat (constructor 2;
          [intros u Hu; vm_compute in Hu; try discriminate Hu;
           injection Hu as <-; split; vm_compute; discriminate|]).
  constructor 1.
Defined.
